(** * ChemRouteExtractor: a shallow embedding of [chem_route_extractor.py]

    The development follows the source file top to bottom:
    the Python values the program manipulates ([Py]), the discovery of
    input files ([find_pdf_files]), the text-mining extractor
    ([extract_text_info]), the reaction normalizer (the loop of
    [extract_reactions_with_openchemie]), the image stage
    ([generate_reaction_images]), the document assembler
    ([create_word_document]) and the two orchestrators ([process_pdf],
    [main]).

    Python [int] is [Z]; a Python [str] is the list of its Unicode code
    points; a call that may raise returns in the exception monad [Exc];
    the collaborators the program imports (pdfplumber, OpenChemIE, RDKit,
    python-docx, the file system) are records of functions that say, for
    each call the source makes, what it returns or raises; an import
    that the source does not guard is an outcome of its own. *)

From Stdlib Require Import ZArith NArith Bool Lia String Ascii DecimalString
  DecimalPos DecimalZ.
From stdpp Require Import base tactics option list sorting.

Set Default Proof Using "Type".
Set Warnings "-abstract-large-number".

(** * Python values *)

Module Py.

(** A character is a Unicode code point, a [str] a sequence of them:
    [len], slicing and comparison all count code points. *)
Definition char := N.
Definition str := list char.

(** ASCII literals of the source. *)
Definition lit (s : string) : str :=
  map N_of_ascii (list_ascii_of_string s).

Definition chr_newline : char := 10%N.
Definition chr_dot : char := 46%N.

Definition char_eqb (a b : char) : bool := N.eqb a b.

Fixpoint str_eqb (s t : str) : bool :=
  match s, t with
  | [], [] => true
  | a :: s', b :: t' => char_eqb a b && str_eqb s' t'
  | _, _ => false
  end.

(** [s.startswith(p)] *)
Fixpoint startswith (s p : str) : bool :=
  match p, s with
  | [], _ => true
  | b :: p', a :: s' => char_eqb a b && startswith s' p'
  | _ :: _, [] => false
  end.

(** [p in s] for strings: [p] occurs in [s] as a substring. *)
Fixpoint contains (s p : str) : bool :=
  startswith s p ||
  match s with
  | [] => false
  | _ :: s' => contains s' p
  end.

(** [s.rfind(c)] for a one-character needle: the highest index, or
    nothing (Python's [-1]). *)
Fixpoint rfind_from (c : char) (s : str) (i : nat) : option nat :=
  match s with
  | [] => None
  | a :: s' =>
      match rfind_from c s' (S i) with
      | Some j => Some j
      | None => if char_eqb a c then Some i else None
      end
  end.
Definition rfind (c : char) (s : str) : option nat := rfind_from c s 0.

(** [str.lower], character by character.  The table is the ASCII one
    (the letters A to Z); the two code points outside it whose lower
    case reaches or leaves ASCII are written out (U+0130 becomes
    [i] followed by U+0307, the Kelvin sign U+212A becomes [k]); every
    other code point is left as it is, so the model is exact on ASCII
    text and never turns a non-ASCII character into one of [.pdf]. *)
Definition lower_char (c : char) : list char :=
  if (65 <=? c)%N && (c <=? 90)%N then [(c + 32)%N]
  else if (c =? 304)%N then [105%N; 775%N]
  else if (c =? 8490)%N then [107%N]
  else [c].
Definition lower (s : str) : str := flat_map lower_char s.

(** [str.isspace] per character: the code points Python strips. *)
Definition isspace_char (c : char) : bool :=
  ((9 <=? c) && (c <=? 13) || (28 <=? c) && (c <=? 32)
   || (c =? 133) || (c =? 160) || (c =? 5760)
   || (8192 <=? c) && (c <=? 8202)
   || (c =? 8232) || (c =? 8233) || (c =? 8239) || (c =? 8287)
   || (c =? 12288))%N.

Fixpoint lstrip (s : str) : str :=
  match s with
  | [] => []
  | a :: s' => if isspace_char a then lstrip s' else s
  end.
Definition rstrip (s : str) : str := rev (lstrip (rev s)).
(** [s.strip()] *)
Definition strip (s : str) : str := rstrip (lstrip s).

(** [s.split(c)] for a one-character separator: never empty. *)
Fixpoint split (c : char) (s : str) : list str :=
  match s with
  | [] => [[]]
  | a :: s' =>
      if char_eqb a c then [] :: split c s'
      else match split c s' with
           | [] => [[a]]
           | l :: ls => (a :: l) :: ls
           end
  end.

(** [sep.join(parts)] *)
Fixpoint join (sep : str) (parts : list str) : str :=
  match parts with
  | [] => []
  | [p] => p
  | p :: ps => p ++ sep ++ join sep ps
  end.

(** [str.isdigit] and [str.isnumeric] per character, over the whole of
    Unicode.  Python reads both from the Unicode character database:
    a character is a digit when its numeric type is Decimal or Digit, and
    numeric when it has any numeric type.  The two tables below list the
    code points as closed intervals, for the database of Python 3.11
    (Unicode 14.0): [digit_ranges] the digits (the ASCII digits, the
    superscripts, the Arabic-Indic and the full-width digits, ...),
    [numeric_only_ranges] the numeric characters that are no digits (the
    fractions, the Roman numerals, the CJK numerals, ...). *)
Definition in_ranges (c : char) (ranges : list (N * N)) : bool :=
  existsb (fun r => (fst r <=? c)%N && (c <=? snd r)%N) ranges.

Definition digit_ranges : list (N * N) :=
  [(48, 57); (178, 179); (185, 185); (1632, 1641); (1776, 1785);
   (1984, 1993); (2406, 2415); (2534, 2543); (2662, 2671); (2790, 2799);
   (2918, 2927); (3046, 3055); (3174, 3183); (3302, 3311); (3430, 3439);
   (3558, 3567); (3664, 3673); (3792, 3801); (3872, 3881); (4160, 4169);
   (4240, 4249); (4969, 4977); (6112, 6121); (6160, 6169); (6470, 6479);
   (6608, 6618); (6784, 6793); (6800, 6809); (6992, 7001); (7088, 7097);
   (7232, 7241); (7248, 7257); (8304, 8304); (8308, 8313); (8320, 8329);
   (9312, 9320); (9332, 9340); (9352, 9360); (9450, 9450); (9461, 9469);
   (9471, 9471); (10102, 10110); (10112, 10120); (10122, 10130);
   (42528, 42537); (43216, 43225); (43264, 43273); (43472, 43481);
   (43504, 43513); (43600, 43609); (44016, 44025); (65296, 65305);
   (66720, 66729); (68160, 68163); (68912, 68921); (69216, 69224);
   (69714, 69722); (69734, 69743); (69872, 69881); (69942, 69951);
   (70096, 70105); (70384, 70393); (70736, 70745); (70864, 70873);
   (71248, 71257); (71360, 71369); (71472, 71481); (71904, 71913);
   (72016, 72025); (72784, 72793); (73040, 73049); (73120, 73129);
   (92768, 92777); (92864, 92873); (93008, 93017); (120782, 120831);
   (123200, 123209); (123632, 123641); (125264, 125273); (127232, 127242);
   (130032, 130041)]%N.

Definition numeric_only_ranges : list (N * N) :=
  [(188, 190); (2548, 2553); (2930, 2935); (3056, 3058); (3192, 3198);
   (3416, 3422); (3440, 3448); (3882, 3891); (4978, 4988); (5870, 5872);
   (6128, 6137); (8528, 8578); (8581, 8585); (9321, 9331); (9341, 9351);
   (9361, 9371); (9451, 9460); (9470, 9470); (10111, 10111);
   (10121, 10121); (10131, 10131); (11517, 11517); (12295, 12295);
   (12321, 12329); (12344, 12346); (12690, 12693); (12832, 12841);
   (12872, 12879); (12881, 12895); (12928, 12937); (12977, 12991);
   (13317, 13317); (13443, 13443); (14378, 14378); (15181, 15181);
   (19968, 19968); (19971, 19971); (19975, 19975); (19977, 19977);
   (20061, 20061); (20108, 20108); (20116, 20116); (20118, 20118);
   (20159, 20160); (20191, 20191); (20200, 20200); (20237, 20237);
   (20336, 20336); (20740, 20740); (20806, 20806); (20841, 20841);
   (20843, 20843); (20845, 20845); (21313, 21313); (21315, 21317);
   (21324, 21324); (21441, 21444); (22235, 22235); (22769, 22769);
   (22777, 22777); (24186, 24186); (24318, 24319); (24332, 24334);
   (24336, 24336); (25342, 25342); (25420, 25420); (26578, 26578);
   (28422, 28422); (29590, 29590); (30334, 30334); (32902, 32902);
   (33836, 33836); (36014, 36014); (36019, 36019); (36144, 36144);
   (38433, 38433); (38470, 38470); (38476, 38476); (38520, 38520);
   (38646, 38646); (42726, 42735); (43056, 43061); (63851, 63851);
   (63859, 63859); (63864, 63864); (63922, 63922); (63953, 63953);
   (63955, 63955); (63997, 63997); (65799, 65843); (65856, 65912);
   (65930, 65931); (66273, 66299); (66336, 66339); (66369, 66369);
   (66378, 66378); (66513, 66517); (67672, 67679); (67705, 67711);
   (67751, 67759); (67835, 67839); (67862, 67867); (68028, 68029);
   (68032, 68047); (68050, 68095); (68164, 68168); (68221, 68222);
   (68253, 68255); (68331, 68335); (68440, 68447); (68472, 68479);
   (68521, 68527); (68858, 68863); (69225, 69246); (69405, 69414);
   (69457, 69460); (69573, 69579); (69723, 69733); (70113, 70132);
   (71482, 71483); (71914, 71922); (72794, 72812); (73664, 73684);
   (74752, 74862); (93019, 93025); (93824, 93846); (119520, 119539);
   (119648, 119672); (125127, 125135); (126065, 126123); (126125, 126127);
   (126129, 126132); (126209, 126253); (126255, 126269); (127243, 127244);
   (131073, 131073); (131172, 131172); (131298, 131298); (131361, 131361);
   (133418, 133418); (133507, 133507); (133516, 133516); (133532, 133532);
   (133866, 133866); (133885, 133885); (133913, 133913); (140176, 140176);
   (141720, 141720); (146203, 146203); (156269, 156269); (194704, 194704)]%N.

Definition isdigit_char (c : char) : bool := in_ranges c digit_ranges.
Definition isnumeric_char (c : char) : bool :=
  isdigit_char c || in_ranges c numeric_only_ranges.

(** True when the string is not empty and every character passes. *)
Definition all_chars (p : char -> bool) (s : str) : bool :=
  match s with
  | [] => false
  | _ => forallb p s
  end.
Definition isdigit (s : str) : bool := all_chars isdigit_char s.
Definition isnumeric (s : str) : bool := all_chars isnumeric_char s.

(** [str(n)] for an [int]. *)
Definition str_of_int (z : Z) : str :=
  lit (NilZero.string_of_int (Z.to_int z)).

(** Truthiness of a string and of a list. *)
Definition truthy {A} (l : list A) : bool :=
  match l with [] => false | _ => true end.

(** [s < t] on strings: lexicographic on code points. *)
Fixpoint str_compare (s t : str) : comparison :=
  match s, t with
  | [], [] => Eq
  | [], _ :: _ => Lt
  | _ :: _, [] => Gt
  | a :: s', b :: t' =>
      match N.compare a b with
      | Eq => str_compare s' t'
      | c => c
      end
  end.

End Py.
Import Py.

(** * Exceptions *)

(** A call either returns or raises an exception, kept as [str(e)]. *)
Inductive Exc (A : Type) : Type :=
| Ok (a : A)
| Raise (msg : str).
Arguments Ok {A} a.
Arguments Raise {A} msg.

#[global] Instance exc_ret : MRet Exc := fun A a => Ok a.
#[global] Instance exc_bind : MBind Exc := fun A B k m =>
  match m with
  | Ok a => k a
  | Raise msg => Raise msg
  end.

Definition raises {A} (m : Exc A) : bool :=
  match m with Ok _ => false | Raise _ => true end.

(** * Paths and the file system *)

(** A [pathlib.Path]: the directories above and the final component. *)
Record Path := {
  parent : list str;
  name : str;
}.

(** [d / child] *)
Definition joinpath (d : Path) (child : str) : Path :=
  {| parent := parent d ++ [name d]; name := child |}.

(** [PurePath.suffix]: [i = name.rfind('.')], and the suffix is
    [name[i:]] when [0 < i < len(name) - 1], empty otherwise. *)
Definition suffix (p : Path) : str :=
  match rfind chr_dot (name p) with
  | Some i =>
      if (0 <? i) && (S i <? length (name p)) then drop i (name p) else []
  | None => []
  end.

(** [PurePath.stem]: the name without its suffix. *)
Definition stem (p : Path) : str :=
  match rfind chr_dot (name p) with
  | Some i =>
      if (0 <? i) && (S i <? length (name p)) then take i (name p)
      else name p
  | None => name p
  end.

(** What the program asks of the file system, call by call. *)
Record FileSystem := {
  is_file : Path -> bool;
  is_dir : Path -> bool;
  (** [input_path.glob("**/*.pdf")], in the order it yields *)
  glob_pdf : Path -> list Path;
  (** [p.mkdir(exist_ok=True)] *)
  mkdir : Path -> Exc unit;
  (** [p.exists()] *)
  exists_path : Path -> bool;
  (** [p.stat().st_size] *)
  st_size : Path -> Z;
  (** [open(p, 'w')] followed by [json.dump] *)
  dump_json : Path -> Exc unit;
}.

(** ** [find_pdf_files] (lines 114-133) *)

Definition find_pdf_files (fs : FileSystem) (input_path : Path)
    (include_si : bool) : list Path :=
  if is_file fs input_path then
    if str_eqb (lower (suffix input_path)) (lit ".pdf") then [input_path]
    else []
  else if is_dir fs input_path then
    fold_left
      (fun pdf_files pdf_file =>
         if negb include_si && contains (name pdf_file) (lit "SI")
         then pdf_files
         else pdf_files ++ [pdf_file])
      (glob_pdf fs input_path) []
  else [].

(** * The text-mining extractor *)

(** pdfplumber, for one file: [pdfplumber.open] returns the pages or
    raises; page [i]'s [extract_text()] returns a text, [None], or
    raises.  Whether the module can be imported at all is a matter of
    the installation, not of the file: it is the separate argument
    [import_pdfplumber] of the extractor below. *)
Record PdfPlumber := {
  pdf_open : Path -> Exc (list (Exc (option str)));
}.

(** The regular-expression engine on the patterns of the source.  The
    patterns are data of the source; what [re] finds with them is the
    engine's business, so each use is a function of the searched text.
    None of these raises on a [str]. *)
Record Regex := {
  (** [re.search(exp_patterns[k], all_text, DOTALL|IGNORECASE)]: group 1 *)
  search_experimental : nat -> str -> option str;
  (** [re.search] of the keyword alternation in a line *)
  search_keyword : str -> bool;
  (** [re.findall(compound_patterns[k], all_text, IGNORECASE)] *)
  findall_compound : nat -> str -> list str;
  (** [re.findall(phys_patterns[k], all_text, DOTALL|IGNORECASE)] *)
  findall_phys : nat -> str -> list str;
  (** [re.search] of the description pattern built from a compound:
      group 0 *)
  search_description : str -> str -> option str;
}.

Record ExtractedTextInfo := {
  experimental_text : str;
  compounds : list str;
  physical_props : list str;
  compound_descriptions : list (str * str);
  total_pages : Z;
  pages_processed : Z;
  source_pdf : Path;
  error : option str;
}.

(** A Python [set] of strings: the elements without repetition.  The
    order in which a set iterates is the interpreter's; [iter_set] is
    that order, any function of the set. *)
Definition set_add (x : str) (s : list str) : list str :=
  if existsb (str_eqb x) s then s else s ++ [x].

(** ** The sort key of line 228 *)

(** [(str(x).isnumeric(), str(x))] *)
Definition compound_key (x : str) : bool * str := (isnumeric x, x).

(** Python's order on such tuples: first components first,
    [False < True], then the strings. *)
Definition key_compare (a b : bool * str) : comparison :=
  match fst a, fst b with
  | false, true => Lt
  | true, false => Gt
  | _, _ => str_compare (snd a) (snd b)
  end.

Definition key_leb (a b : bool * str) : bool :=
  match key_compare a b with Gt => false | _ => true end.

(** [sorted(xs, key=f)]: a stable sort, here by insertion after the
    elements that are not greater. *)
Fixpoint insert_by {A} (f : A -> bool * str) (x : A) (l : list A) : list A :=
  match l with
  | [] => [x]
  | y :: l' =>
      if key_leb (f y) (f x) then y :: insert_by f x l' else x :: l
  end.

Definition sorted {A} (f : A -> bool * str) (xs : list A) : list A :=
  fold_left (fun acc x => insert_by f x acc) xs [].

(** ** [extract_text_info] (lines 135-247) *)

Section TextMining.
(** The statement [import pdfplumber] (line 137): it returns, or raises
    [ImportError] when the module is not installed. *)
Variable import_pdfplumber : Exc unit.
Variable pp : PdfPlumber.
Variable re : Regex.
Variable iter_set : list str -> list str.

(** Lines 148-153: the text of the processed pages. *)
Fixpoint read_pages (pages : list (Exc (option str))) (all_text : str)
    : Exc str :=
  match pages with
  | [] => Ok all_text
  | page :: rest =>
      text ← page;
      match text with
      | Some t =>
          if truthy t then read_pages rest (all_text ++ t ++ [chr_newline; chr_newline])
          else read_pages rest all_text
      | None => read_pages rest all_text
      end
  end.

(** Lines 163-168: the first heading pattern that matches wins. *)
Fixpoint first_experimental (patterns : list nat) (all_text : str) : str :=
  match patterns with
  | [] => []
  | k :: ks =>
      match search_experimental re k all_text with
      | Some group1 => strip group1
      | None => first_experimental ks all_text
      end
  end.

(** Lines 171-181: the keyword lines, at most fifty of them. *)
Definition fallback_experimental (all_text : str) : str :=
  let lines := split chr_newline all_text in
  let synth_lines :=
    map strip (List.filter (search_keyword re) lines) in
  if truthy synth_lines then join [chr_newline] (take 50 synth_lines)
  else [].

(** Lines 184-198: the identifiers of the four patterns, single
    non-digit characters left out. *)
Definition add_matches (compounds : list str) (matches : list str)
    : list str :=
  fold_left
    (fun acc m =>
       if (1 <? length m) || isdigit m then set_add m acc else acc)
    matches compounds.

Definition find_compounds (all_text : str) : list str :=
  fold_left
    (fun acc k => add_matches acc (findall_compound re k all_text))
    (seq 0 4) [].

(** Lines 201-214 *)
Definition find_phys_props (all_text : str) : list str :=
  flat_map (fun k => findall_phys re k all_text) (seq 0 7).

(** Lines 217-224: a [dict], kept as its items in insertion order. *)
Definition dict_set (k v : str) (d : list (str * str)) : list (str * str) :=
  if existsb (fun kv => str_eqb (fst kv) k) d
  then map (fun kv => if str_eqb (fst kv) k then (k, v) else kv) d
  else d ++ [(k, v)].

Definition describe_compounds (found : list str) (all_text : str)
    : list (str * str) :=
  if truthy found then
    fold_left
      (fun compound_desc compound =>
         match search_description re compound all_text with
         | Some group0 => dict_set compound (take 200 group0) compound_desc
         | None => compound_desc
         end)
      (take 5 (iter_set found)) []
  else [].

(** The body of the [try] (lines 143-234). *)
Definition extract_text_body (pdf_path : Path) (max_pages : Z)
    : Exc ExtractedTextInfo :=
  pages ← pdf_open pp pdf_path;
  let n_pages := Z.of_nat (length pages) in
  let pages_to_process := Z.min max_pages n_pages in
  all_text ← read_pages (take (Z.to_nat pages_to_process) pages) [];
  let exp_text := first_experimental (seq 0 3) all_text in
  let exp_text :=
    if truthy exp_text then exp_text else fallback_experimental all_text in
  let found := find_compounds all_text in
  let phys_props := find_phys_props all_text in
  let compound_desc := describe_compounds found all_text in
  Ok {| experimental_text := exp_text;
        compounds := sorted compound_key (iter_set found);
        physical_props := take 10 phys_props;
        compound_descriptions := compound_desc;
        total_pages := n_pages;
        pages_processed := pages_to_process;
        source_pdf := pdf_path;
        error := None |}.

(** The record of the [except] branch (lines 238-247). *)
Definition default_text_info (pdf_path : Path) (e : str)
    : ExtractedTextInfo :=
  {| experimental_text := [];
     compounds := [];
     physical_props := [];
     compound_descriptions := [];
     total_pages := 0;
     pages_processed := 0;
     source_pdf := pdf_path;
     error := Some e |}.

(** The [try] statement with its handler (lines 142-247): whatever the
    body raises, a record is returned. *)
Definition extract_text_try (pdf_path : Path) (max_pages : Z)
    : ExtractedTextInfo :=
  match extract_text_body pdf_path max_pages with
  | Ok info => info
  | Raise e => default_text_info pdf_path e
  end.

(** The function: the import of line 137 stands before the [try] of
    line 142, so what it raises leaves the function. *)
Definition extract_text_info (pdf_path : Path) (max_pages : Z)
    : Exc ExtractedTextInfo :=
  import_pdfplumber;;
  Ok (extract_text_try pdf_path max_pages).

End TextMining.

(** * The reaction normalizer *)

(** The recognition model's output, as the loop reads it: a candidate
    species with its optional ['smiles'], a raw reaction entry with its
    optional ['reactants'] and ['products'] lists, a figure with its
    optional ['reactions'] and ['page'].  [payload] stands for
    everything else the model put in the entry, which the program
    passes on without reading it. *)
Record Species := {
  smiles : option str;
}.

Record RawReaction := {
  reactants : option (list Species);
  products : option (list Species);
  payload : nat;
}.

Record Figure := {
  fig_reactions : option (list RawReaction);
  fig_page : option Z;
}.

(** The dictionary built at lines 300-306, with the three keys the
    image stage adds later. *)
Record Reaction := {
  reaction_id : Z;
  page : Z;
  reactant_smiles : str;
  product_smiles : str;
  raw_data : RawReaction;
  reactant_image : option Path;
  product_image : option Path;
  images_generated : option bool;
}.

(** Lines 288-291 and 294-297: the first candidate whose ['smiles'] is
    present and not empty. *)
Fixpoint first_smiles (candidates : list Species) : option str :=
  match candidates with
  | [] => None
  | c :: rest =>
      match smiles c with
      | Some s => if truthy s then Some s else first_smiles rest
      | None => first_smiles rest
      end
  end.

(** Lines 287 and 293: the key is there and the list is not empty. *)
Definition select_smiles (candidates : option (list Species)) : option str :=
  match candidates with
  | Some l => if truthy l then first_smiles l else None
  | None => None
  end.

(** Truthiness of a value that is [None] or a string (line 299). *)
Definition truthy_opt (s : option str) : bool :=
  match s with
  | Some s => truthy s
  | None => false
  end.

(** Lines 283-308: one raw entry against the records accepted so far. *)
Definition normalize_entry (page0 : Z) (reactions : list Reaction)
    (rxn : RawReaction) : list Reaction :=
  let reactant := select_smiles (reactants rxn) in
  let product := select_smiles (products rxn) in
  if truthy_opt reactant && truthy_opt product then
    reactions ++
      [{| reaction_id := Z.of_nat (length reactions) + 1;
          page := page0 + 1;
          reactant_smiles := default [] reactant;
          product_smiles := default [] product;
          raw_data := rxn;
          reactant_image := None;
          product_image := None;
          images_generated := None |}]
  else reactions.

(** Lines 278-282: one figure; a figure without ['page'] counts as
    being on the page of its own index. *)
Definition normalize_figure (fig_idx : nat) (reactions : list Reaction)
    (fig_result : Figure) : list Reaction :=
  let fig_reactions := default [] (fig_reactions fig_result) in
  let page0 := default (Z.of_nat fig_idx) (fig_page fig_result) in
  fold_left (normalize_entry page0) fig_reactions reactions.

(** [for fig_idx, fig_result in enumerate(figure_results)], from a
    given index and list of records. *)
Fixpoint normalize_from (fig_idx : nat) (figure_results : list Figure)
    (reactions : list Reaction) : list Reaction :=
  match figure_results with
  | [] => reactions
  | fig_result :: rest =>
      normalize_from (S fig_idx) rest
        (normalize_figure fig_idx reactions fig_result)
  end.

(** Lines 277-311 *)
Definition normalize_reactions (figure_results : list Figure)
    : list Reaction :=
  normalize_from 0 figure_results [].

(** OpenChemIE for one call: loading torch and the model and running
    it, which returns the figure results or raises. *)
Record OpenChemIE := {
  extract_reactions_from_figures_in_pdf : Path -> Z -> Exc (list Figure);
}.

(** ** [extract_reactions_with_openchemie] (lines 249-317) *)
Definition extract_reactions_with_openchemie (oc : OpenChemIE)
    (pdf_path : Path) (max_pages : Z) : list Reaction :=
  match extract_reactions_from_figures_in_pdf oc pdf_path max_pages with
  | Ok figure_results => normalize_reactions figure_results
  | Raise _ => []
  end.

(** * The image stage *)

(** RDKit: whether the imports of lines 322-324 succeed;
    [Chem.MolFromSmiles], which returns a molecule ([true]), [None]
    ([false]) or raises; and [Draw.MolToImage(mol, size=(300, 300))]
    followed by [img.save(path)]. *)
Record RDKit := {
  rdkit_available : bool;
  MolFromSmiles : str -> Exc bool;
  draw_and_save : str -> Path -> Exc unit;
}.

Definition image_name (reaction_num : Z) (role : string) : str :=
  lit "reaction_" ++ str_of_int reaction_num ++ lit "_" ++ lit role
  ++ lit ".png".

(** The body of the inner [try] (lines 339-361). *)
Definition render_reaction_body (rd : RDKit) (images_dir : Path)
    (reaction : Reaction) : Exc Reaction :=
  let reaction_num := reaction_id reaction in
  reactant_mol ← MolFromSmiles rd (reactant_smiles reaction);
  product_mol ← MolFromSmiles rd (product_smiles reaction);
  if reactant_mol && product_mol then
    let reactant_path := joinpath images_dir (image_name reaction_num "reactant") in
    draw_and_save rd (reactant_smiles reaction) reactant_path;;
    let product_path := joinpath images_dir (image_name reaction_num "product") in
    draw_and_save rd (product_smiles reaction) product_path;;
    Ok {| reaction_id := reaction_id reaction;
          page := page reaction;
          reactant_smiles := reactant_smiles reaction;
          product_smiles := product_smiles reaction;
          raw_data := raw_data reaction;
          reactant_image := Some reactant_path;
          product_image := Some product_path;
          images_generated := Some true |}
  else
    Ok {| reaction_id := reaction_id reaction;
          page := page reaction;
          reactant_smiles := reactant_smiles reaction;
          product_smiles := product_smiles reaction;
          raw_data := raw_data reaction;
          reactant_image := reactant_image reaction;
          product_image := product_image reaction;
          images_generated := Some false |}.

(** One turn of the loop (lines 334-365): the [except] branch sets the
    flag to [False] on the record as it was. *)
Definition render_reaction (rd : RDKit) (images_dir : Path)
    (reaction : Reaction) : Reaction :=
  match render_reaction_body rd images_dir reaction with
  | Ok reaction' => reaction'
  | Raise _ =>
      {| reaction_id := reaction_id reaction;
         page := page reaction;
         reactant_smiles := reactant_smiles reaction;
         product_smiles := product_smiles reaction;
         raw_data := raw_data reaction;
         reactant_image := reactant_image reaction;
         product_image := product_image reaction;
         images_generated := Some false |}
  end.

(** ** [generate_reaction_images] (lines 319-367) *)
Definition generate_reaction_images (rd : RDKit) (fs : FileSystem)
    (reactions : list Reaction) (output_dir : Path)
    : Exc (list Reaction) :=
  if negb (rdkit_available rd) then Ok reactions
  else
    let images_dir := joinpath output_dir (lit "reaction_images") in
    mkdir fs images_dir;;
    Ok (map (render_reaction rd images_dir) reactions).

(** * The document assembler *)

(** The paragraphs the assembler appends, in order.  A paragraph keeps
    its text and the formatting the source gives it; the paragraph of a
    reaction's images keeps its runs, each a list of pictures and
    texts. *)
Inductive Style :=
| Plain
| Bold
| Italic
| TitleStyle      (* centered, bold, 16 pt *)
| Small           (* 9 pt *)
| Red             (* RGB 255, 0, 0 *)
| Footer.         (* 8 pt, grey *)

Inductive Inline :=
| Picture (file : Path)
| Text (s : str).

Inductive Block :=
| Para (style : Style) (text : str)
| Empty
| Images (runs : list (list Inline)).

Definition Document := list Block.

(** python-docx: whether the imports of lines 374-376 succeed;
    [docx.Document(template)] and [docx.Document()];
    [doc.add_paragraph(text)] and [para.add_run(text)], which write a
    text that is not empty into the XML of the document and raise
    [ValueError] on a text XML cannot hold (a control character such as
    a form feed);
    [run.add_picture(file, width=Inches(1.8))]; [doc.save(path)]. *)
Record Docx := {
  docx_available : bool;
  open_template : Path -> Exc Document;
  new_document : Document;
  add_text : str -> Exc unit;
  add_picture : Path -> Exc unit;
  save : Document -> Path -> Exc unit;
}.

(** The literals of the source that are not ASCII, by code point. *)
Definition txt_title_prefix : str := [21270; 21512; 29289]%N.
Definition txt_title_suffix : str := [30340; 21512; 25104; 36335; 32447]%N.
Definition txt_title_more : str := [31561]%N.
Definition txt_title_stem : str := [32; 21512; 25104; 36335; 32447]%N.
Definition txt_source_heading : str := [21407; 25991; 65306]%N.
(** ["\n\n...（内容过长，已截断）"], fifteen characters *)
Definition txt_truncated : str :=
  [10; 10; 46; 46; 46; 65288; 20869; 23481; 36807; 38271; 65292; 24050;
   25130; 26029; 65289]%N.
Definition txt_not_extracted : str :=
  [65288; 23454; 39564; 37096; 20998; 26410; 25552; 21462; 21040; 65289]%N.
Definition txt_phys_heading : str :=
  [29289; 29702; 24615; 36136; 25968; 25454; 65306]%N.
Definition txt_target_heading : str := [20013; 25991; 65306]%N.
Definition txt_to_translate : str := [65288; 24453; 32763; 35793; 65289]%N.
Definition txt_reactions_heading : str := [21453; 24212; 22270; 65306]%N.
Definition txt_reactions_intro : str :=
  [20197; 19979; 26159; 36890; 36807]%N ++ lit "OpenChemIE"
  ++ [33258; 21160; 25552; 21462; 30340; 21270; 23398; 21453; 24212;
      32467; 26500; 22270; 65306]%N.
Definition txt_reaction : str := [21453; 24212; 32]%N.
Definition txt_page_open : str := [32; 40; 31532]%N.
Definition txt_page_close : str := [39029; 41; 58]%N.
Definition txt_reactant : str := [21453; 24212; 29289; 58; 32]%N.
Definition txt_arrow_product : str :=
  lit "... " ++ [8594; 32; 20135; 29289; 58; 32]%N.
Definition txt_arrow : str := [32; 32; 32; 8594; 32; 32; 32]%N.
Definition txt_no_image : str :=
  [65288; 21453; 24212; 22270; 20687; 26410; 29983; 25104; 65289]%N.
Definition txt_spectra_heading : str := [35889; 22270; 65306]%N.
Definition txt_to_complete : str := [65288; 24453; 34917; 20805; 65289]%N.
Definition txt_meta_source : str :=
  [25991; 26723; 29983; 25104; 20449; 24687; 58; 32; 26469; 28304]%N
  ++ lit "PDF - ".
Definition txt_meta_pages : str :=
  lit ", " ++ [22788; 29702; 39029; 25968]%N ++ lit " - ".
Definition txt_meta_reactions : str :=
  lit ", " ++ [25552; 21462; 21453; 24212; 25968]%N ++ lit " - ".
Definition txt_doc_failed : str :=
  [21019; 24314]%N ++ lit "Word" ++ [25991; 26723; 22833; 36133]%N.
Definition txt_doc_suffix : str :=
  lit "_" ++ [21512; 25104; 36335; 32447]%N ++ lit ".docx".

(** [language in [a, b]] *)
Definition language_in (language : str) (choices : list string) : bool :=
  existsb (fun c => str_eqb language (lit c)) choices.

(** Lines 390-395 *)
Definition document_title (pdf_info : ExtractedTextInfo) : str :=
  if truthy (compounds pdf_info) then
    let title :=
      txt_title_prefix ++ join (lit ", ") (take 3 (compounds pdf_info))
      ++ txt_title_suffix in
    if 3 <? length (compounds pdf_info) then title ++ txt_title_more
    else title
  else stem (source_pdf pdf_info) ++ txt_title_stem.

(** Lines 420-424: the line starts with a compound identifier, or
    names one after the word "compound". *)
Definition compound_start (found : list str) (line : str) : bool :=
  existsb
    (fun compound =>
       startswith (strip line) compound
       || contains (lower line) (lit "compound " ++ compound))
    found.

(** Lines 410-413: the text the section goes on to split into lines. *)
Definition shown_experimental (exp_text : str) : str :=
  if 5000 <? length exp_text then take 5000 exp_text ++ txt_truncated
  else exp_text.

(** Lines 416-432: one paragraph for each line that is not blank. *)
Definition experimental_paragraphs (found : list str) (exp_text : str)
    : Document :=
  flat_map
    (fun line =>
       if truthy (strip line) then
         if compound_start found line then [Para Bold line]
         else [Para Plain line]
       else [])
    (split chr_newline exp_text).

(** Lines 406-434: the source-language section. *)
Definition source_section (pdf_info : ExtractedTextInfo) (language : str)
    : Document :=
  if language_in language ["en"; "both"]%string then
    Para Plain txt_source_heading ::
      (if truthy (experimental_text pdf_info) then
         experimental_paragraphs (compounds pdf_info)
           (shown_experimental (experimental_text pdf_info))
       else [Para Plain txt_not_extracted])
  else [].

(** Lines 437-441 *)
Definition physical_section (pdf_info : ExtractedTextInfo) : Document :=
  if truthy (physical_props pdf_info) then
    Empty :: Para Plain txt_phys_heading ::
      map (Para Plain) (physical_props pdf_info)
  else [].

(** Lines 444-447 *)
Definition target_section (language : str) : Document :=
  if language_in language ["zh"; "both"]%string then
    [Empty; Para Plain txt_target_heading; Para Plain txt_to_translate]
  else [].

(** Lines 473-480 and 483-489: a picture is inserted when the record
    has the key and the file exists; a failure of [add_picture] is
    caught, and leaves the run that was just added empty. *)
Definition picture_run (dx : Docx) (fs : FileSystem) (image : option Path)
    (after : list Inline) : list (list Inline) :=
  match image with
  | Some file =>
      if exists_path fs file then
        match add_picture dx file with
        | Ok _ => [Picture file :: after]
        | Raise _ => [[]]
        end
      else []
  | None => []
  end.

(** Lines 455-495: the paragraphs of one reaction. *)
Definition reaction_paragraphs (dx : Docx) (fs : FileSystem)
    (reaction : Reaction) : Document :=
  let reaction_num := reaction_id reaction in
  [ Para Italic
      (txt_reaction ++ str_of_int reaction_num ++ txt_page_open
       ++ str_of_int (page reaction) ++ txt_page_close);
    Para Small
      (txt_reactant ++ take 50 (reactant_smiles reaction)
       ++ txt_arrow_product ++ take 50 (product_smiles reaction)
       ++ lit "...") ]
  ++ (if default false (images_generated reaction) then
        [Images
           (picture_run dx fs (reactant_image reaction) [Text txt_arrow]
            ++ picture_run dx fs (product_image reaction) [])]
      else [Para Red txt_no_image])
  ++ [Empty].

(** Lines 450-495 *)
Definition reaction_section (dx : Docx) (fs : FileSystem)
    (reactions : list Reaction) : Document :=
  if truthy reactions then
    [Empty; Para Plain txt_reactions_heading; Para Plain txt_reactions_intro]
    ++ flat_map (reaction_paragraphs dx fs) reactions
  else [].

(** Lines 498-510 *)
Definition closing_section (pdf_info : ExtractedTextInfo)
    (reactions : list Reaction) : Document :=
  [ Empty; Para Plain txt_spectra_heading; Para Plain txt_to_complete;
    Empty; Para Plain (concat (replicate 50 (lit "-")));
    Para Footer
      (txt_meta_source ++ name (source_pdf pdf_info)
       ++ txt_meta_pages ++ str_of_int (pages_processed pdf_info)
       ++ lit "/" ++ str_of_int (total_pages pdf_info)
       ++ txt_meta_reactions
       ++ str_of_int (Z.of_nat (length reactions))) ].

(** Lines 389-510: the paragraphs the source goes on to append to the
    opened document, in order. *)
Definition document_body (dx : Docx) (fs : FileSystem)
    (pdf_info : ExtractedTextInfo) (reactions : list Reaction)
    (language : str) : Document :=
  [Para TitleStyle (document_title pdf_info); Empty]
  ++ source_section pdf_info language
  ++ physical_section pdf_info
  ++ target_section language
  ++ reaction_section dx fs reactions
  ++ closing_section pdf_info reactions.

(** What a call leaves behind: the value it returned and the document
    it saved at [output_path], if it saved one. *)
Record Assembled := {
  returned : bool;
  saved : option Document;
}.

(** Lines 384-387: the template when there is one, a new document
    otherwise. *)
Definition open_document (dx : Docx) (fs : FileSystem)
    (template_path : option Path) : Exc Document :=
  match template_path with
  | Some t =>
      if exists_path fs t then open_template dx t else Ok (new_document dx)
  | None => Ok (new_document dx)
  end.

(** One call of [doc.add_paragraph]: a paragraph with a text is
    appended unless python-docx refuses the text; the calls without a
    text, or with an empty one, and the paragraph of the images, whose
    pictures and arrow are added inside the [try] of [picture_run],
    raise nothing. *)
Definition append_block (dx : Docx) (doc : Document) (b : Block)
    : Exc Document :=
  match b with
  | Para _ text =>
      (if truthy text then add_text dx text else Ok ());;
      Ok (doc ++ [b])
  | Empty | Images _ => Ok (doc ++ [b])
  end.

(** The calls one after the other: the first that raises ends them. *)
Fixpoint append_blocks (dx : Docx) (doc : Document) (blocks : list Block)
    : Exc Document :=
  match blocks with
  | [] => Ok doc
  | b :: rest =>
      doc ← append_block dx doc b;
      append_blocks dx doc rest
  end.

(** ** [create_word_document] (lines 369-516) *)
Definition create_word_document (dx : Docx) (fs : FileSystem)
    (pdf_info : ExtractedTextInfo) (reactions : list Reaction)
    (output_path : Path) (language : str) (template_path : option Path)
    : Exc Assembled :=
  if negb (docx_available dx) then
    Ok {| returned := false; saved := None |}
  else
    doc ← open_document dx fs template_path;
    doc ← append_blocks dx doc
            (document_body dx fs pdf_info reactions language);
    save dx doc output_path;;
    Ok {| returned := true; saved := Some doc |}.

(** * The orchestrators *)

(** The parsed command line, as far as the pipeline reads it. *)
Record Args := {
  input : Path;
  output : Path;
  max_pages : Z;
  no_images : bool;
  include_si : bool;
  language : str;
  template : option Path;
}.

(** The JSON configuration: [config.get('save_raw_data', False)]. *)
Record Config := {
  save_raw_data : bool;
}.

(** Everything outside the program. *)
Record World := {
  fs : FileSystem;
  (** [import pdfplumber] in this installation *)
  import_pdfplumber : Exc unit;
  pdfplumber : PdfPlumber;
  regex : Regex;
  iter_set : list str -> list str;
  openchemie : OpenChemIE;
  rdkit : RDKit;
  docx : Docx;
  (** writing [processing_report.json] (lines 636-642) *)
  write_report : Path -> Exc unit;
}.

(** The entry ['text_info'] of a result (lines 539-543). *)
Record TextSummary := {
  compounds_found : Z;
  experimental_text_length : Z;
  physical_props_count : Z;
}.

(** The result dictionary of one file.  Its key ['images_generated']
    is [n_images_generated] here, the name being taken by the flag of a
    reaction. *)
Record ProcessResult := {
  pdf_file : Path;
  output_dir : Path;
  success : bool;
  errors : list str;
  text_info : option TextSummary;
  reactions_extracted : option Z;
  n_images_generated : option Z;
  output_doc : option Path;
  doc_size_kb : option Z;
  raw_data_file : option Path;
}.

Definition set_text_info (v : TextSummary) (r : ProcessResult) :=
  {| pdf_file := pdf_file r; output_dir := output_dir r;
     success := success r; errors := errors r;
     text_info := Some v;
     reactions_extracted := reactions_extracted r;
     n_images_generated := n_images_generated r;
     output_doc := output_doc r; doc_size_kb := doc_size_kb r;
     raw_data_file := raw_data_file r |}.

Definition set_reactions_extracted (v : Z) (r : ProcessResult) :=
  {| pdf_file := pdf_file r; output_dir := output_dir r;
     success := success r; errors := errors r;
     text_info := text_info r;
     reactions_extracted := Some v;
     n_images_generated := n_images_generated r;
     output_doc := output_doc r; doc_size_kb := doc_size_kb r;
     raw_data_file := raw_data_file r |}.

Definition set_n_images_generated (v : Z) (r : ProcessResult) :=
  {| pdf_file := pdf_file r; output_dir := output_dir r;
     success := success r; errors := errors r;
     text_info := text_info r;
     reactions_extracted := reactions_extracted r;
     n_images_generated := Some v;
     output_doc := output_doc r; doc_size_kb := doc_size_kb r;
     raw_data_file := raw_data_file r |}.

(** Lines 559-560 *)
Definition set_output_doc (v : Path) (r : ProcessResult) :=
  {| pdf_file := pdf_file r; output_dir := output_dir r;
     success := true; errors := errors r;
     text_info := text_info r;
     reactions_extracted := reactions_extracted r;
     n_images_generated := n_images_generated r;
     output_doc := Some v; doc_size_kb := doc_size_kb r;
     raw_data_file := raw_data_file r |}.

Definition set_doc_size_kb (v : Z) (r : ProcessResult) :=
  {| pdf_file := pdf_file r; output_dir := output_dir r;
     success := success r; errors := errors r;
     text_info := text_info r;
     reactions_extracted := reactions_extracted r;
     n_images_generated := n_images_generated r;
     output_doc := output_doc r; doc_size_kb := Some v;
     raw_data_file := raw_data_file r |}.

Definition set_raw_data_file (v : Path) (r : ProcessResult) :=
  {| pdf_file := pdf_file r; output_dir := output_dir r;
     success := success r; errors := errors r;
     text_info := text_info r;
     reactions_extracted := reactions_extracted r;
     n_images_generated := n_images_generated r;
     output_doc := output_doc r; doc_size_kb := doc_size_kb r;
     raw_data_file := Some v |}.

(** [result['errors'].append(msg)] *)
Definition append_error (msg : str) (r : ProcessResult) :=
  {| pdf_file := pdf_file r; output_dir := output_dir r;
     success := success r; errors := errors r ++ [msg];
     text_info := text_info r;
     reactions_extracted := reactions_extracted r;
     n_images_generated := n_images_generated r;
     output_doc := output_doc r; doc_size_kb := doc_size_kb r;
     raw_data_file := raw_data_file r |}.

(** Lines 529-534: the dictionary a file starts with. *)
Definition new_result (pdf_path pdf_output_dir : Path) : ProcessResult :=
  {| pdf_file := pdf_path;
     output_dir := pdf_output_dir;
     success := false;
     errors := [];
     text_info := None;
     reactions_extracted := None;
     n_images_generated := None;
     output_doc := None;
     doc_size_kb := None;
     raw_data_file := None |}.

(** [sum(1 for r in reactions if r.get('images_generated', False))] *)
Definition count_images (reactions : list Reaction) : Z :=
  Z.of_nat
    (length (List.filter (fun r => default false (images_generated r))
               reactions)).

Section PerFile.
Variable W : World.
Variable args : Args.
Variable config : Config.

(** The statements of the [try] of [process_pdf] (lines 537-578),
    from the fifth stage back to the first.  Each takes the result
    dictionary as it stands and returns it as the function returns it:
    an exception ends the [try] and the handler (lines 580-584) appends
    its message to the dictionary as it then is. *)

(** Lines 569-578 *)
Definition stage_raw_data (pdf_path pdf_output_dir : Path)
    (result : ProcessResult) : ProcessResult :=
  if save_raw_data config then
    let raw_data_path :=
      joinpath pdf_output_dir (stem pdf_path ++ lit "_raw_data.json") in
    match dump_json (fs W) raw_data_path with
    | Ok _ => set_raw_data_file raw_data_path result
    | Raise e => append_error e result
    end
  else result.

(** Lines 555-566 *)
Definition stage_document (pdf_path pdf_output_dir : Path)
    (info : ExtractedTextInfo) (reactions : list Reaction)
    (result : ProcessResult) : ProcessResult :=
  let output_doc_path :=
    joinpath pdf_output_dir (stem pdf_path ++ txt_doc_suffix) in
  match create_word_document (docx W) (fs W) info reactions
          output_doc_path (language args) (template args) with
  | Raise e => append_error e result
  | Ok made =>
      let result :=
        if returned made then
          let result := set_output_doc output_doc_path result in
          if exists_path (fs W) output_doc_path then
            set_doc_size_kb (st_size (fs W) output_doc_path / 1024) result
          else result
        else append_error txt_doc_failed result in
      stage_raw_data pdf_path pdf_output_dir result
  end.

(** Lines 550-552 *)
Definition stage_images (pdf_path pdf_output_dir : Path)
    (info : ExtractedTextInfo) (reactions : list Reaction)
    (result : ProcessResult) : ProcessResult :=
  if truthy reactions && negb (no_images args) then
    match generate_reaction_images (rdkit W) (fs W) reactions
            pdf_output_dir with
    | Raise e => append_error e result
    | Ok reactions =>
        stage_document pdf_path pdf_output_dir info reactions
          (set_n_images_generated (count_images reactions) result)
    end
  else stage_document pdf_path pdf_output_dir info reactions result.

(** Lines 538-547 *)
Definition process_stages (pdf_path pdf_output_dir : Path)
    (result : ProcessResult) : ProcessResult :=
  match extract_text_info (import_pdfplumber W) (pdfplumber W) (regex W)
          (iter_set W) pdf_path (max_pages args) with
  | Raise e => append_error e result
  | Ok info =>
      let result :=
        set_text_info
          {| compounds_found := Z.of_nat (length (compounds info));
             experimental_text_length :=
               Z.of_nat (length (experimental_text info));
             physical_props_count :=
               Z.of_nat (length (physical_props info)) |}
          result in
      let reactions :=
        extract_reactions_with_openchemie (openchemie W) pdf_path
          (max_pages args) in
      let result :=
        set_reactions_extracted (Z.of_nat (length reactions)) result in
      stage_images pdf_path pdf_output_dir info reactions result
  end.

(** ** [process_pdf] (lines 518-586) *)

(** The directory of the file is made (line 527) before the [try]
    begins (line 536). *)
Definition process_pdf (pdf_path out_dir : Path) : Exc ProcessResult :=
  let pdf_output_dir := joinpath out_dir (stem pdf_path) in
  mkdir (fs W) pdf_output_dir;;
  let result := new_result pdf_path pdf_output_dir in
  Ok (process_stages pdf_path pdf_output_dir result).

(** Lines 619-622: [for pdf_file in pdf_files], appending each result;
    nothing catches what [process_pdf] raises. *)
Fixpoint process_all (pdf_files : list Path) (out_dir : Path)
    (results : list ProcessResult) : Exc (list ProcessResult) :=
  match pdf_files with
  | [] => Ok results
  | pdf_file :: rest =>
      result ← process_pdf pdf_file out_dir;
      process_all rest out_dir (results ++ [result])
  end.

(** What a run of [main] that returns leaves behind: the status it
    returns, the results it gathered, and the results written to the
    report, if a report was written. *)
Record BatchRun := {
  status : Z;
  results : list ProcessResult;
  report : option (list ProcessResult);
}.

(** Line 629 *)
Definition success_count (results : list ProcessResult) : Z :=
  Z.of_nat (length (List.filter success results)).

(** ** [main] (lines 604-659), once the output directory exists *)
Definition main : Exc BatchRun :=
  let output_dir := output args in
  let pdf_files := find_pdf_files (fs W) (input args) (include_si args) in
  if negb (truthy pdf_files) then
    Ok {| status := 1; results := []; report := None |}
  else
    results ← process_all pdf_files output_dir [];
    write_report W (joinpath output_dir (lit "processing_report.json"));;
    Ok {| status := if (0 <? success_count results)%Z then 0 else 1;
          results := results;
          report := Some results |}.

End PerFile.

(** * The vocabulary of the properties *)

(** The first call of a sequence that raises, if one does. *)
Fixpoint first_raise {A} (calls : list (Exc A)) : option str :=
  match calls with
  | [] => None
  | Ok _ :: rest => first_raise rest
  | Raise e :: _ => Some e
  end.

(** What goes wrong while a document is read, if anything does: the
    opening, or the first of the processed pages whose text cannot be
    extracted.  Pages beyond the budget are never touched. *)
Definition extraction_failure (pp : PdfPlumber) (pdf_path : Path)
    (max_pages : Z) : option str :=
  match pdf_open pp pdf_path with
  | Raise e => Some e
  | Ok pages =>
      first_raise
        (take (Z.to_nat (Z.min max_pages (Z.of_nat (length pages)))) pages)
  end.

(** [s <= t] *)
Definition str_le (s t : str) : Prop := str_compare s t <> Gt.

(** The order [sorted] uses on compound identifiers: the one of their
    keys. *)
Definition compound_le (x y : str) : Prop :=
  key_leb (compound_key x) (compound_key y) = true.

(** A list of candidates has [s] as its first structure identifier:
    some candidate carries the non-empty [s], and none before it
    carries an identifier that is not empty. *)
Definition first_identified (candidates : option (list Species))
    (s : str) : Prop :=
  exists before c after,
    candidates = Some (before ++ c :: after)
    /\ smiles c = Some s /\ s <> []
    /\ Forall (fun c' => smiles c' = None \/ smiles c' = Some []) before.

(** The raw entries of the figures, in order, each with the page index
    of its figure. *)
Fixpoint entries_from (fig_idx : nat) (figure_results : list Figure)
    : list (Z * RawReaction) :=
  match figure_results with
  | [] => []
  | fig :: rest =>
      map (pair (default (Z.of_nat fig_idx) (fig_page fig)))
        (default [] (fig_reactions fig))
      ++ entries_from (S fig_idx) rest
  end.

(** An entry is complete when both selections succeed. *)
Definition complete (e : Z * RawReaction) : bool :=
  match select_smiles (reactants e.2), select_smiles (products e.2) with
  | Some _, Some _ => true
  | _, _ => false
  end.

(** The record of the complete entry accepted after [k] others. *)
Definition record_of (k : nat) (e : Z * RawReaction) : Reaction :=
  {| reaction_id := Z.of_nat k + 1;
     page := e.1 + 1;
     reactant_smiles := default [] (select_smiles (reactants e.2));
     product_smiles := default [] (select_smiles (products e.2));
     raw_data := e.2;
     reactant_image := None;
     product_image := None;
     images_generated := None |}.

(** A structure identifier parses; a picture is drawn and saved; a
    record renders: both identifiers parse and both pictures are drawn
    and saved under the names of lines 345 and 350. *)
Definition parses (rd : RDKit) (s : str) : bool :=
  match MolFromSmiles rd s with
  | Ok true => true
  | _ => false
  end.

Definition saves (rd : RDKit) (s : str) (file : Path) : bool :=
  match draw_and_save rd s file with
  | Ok _ => true
  | Raise _ => false
  end.

Definition renders (rd : RDKit) (images_dir : Path) (r : Reaction) : bool :=
  parses rd (reactant_smiles r) && parses rd (product_smiles r)
  && saves rd (reactant_smiles r)
       (joinpath images_dir (image_name (reaction_id r) "reactant"))
  && saves rd (product_smiles r)
       (joinpath images_dir (image_name (reaction_id r) "product")).


(** The exception of the first paragraph text python-docx refuses, if
    it refuses one. *)
Fixpoint first_refused (dx : Docx) (blocks : list Block) : option str :=
  match blocks with
  | [] => None
  | Para _ text :: rest =>
      match (if truthy text then add_text dx text else Ok ()) with
      | Raise e => Some e
      | Ok _ => first_refused dx rest
      end
  | _ :: rest => first_refused dx rest
  end.


(** The result of a file whose directory could be made. *)
Definition result_of (W : World) (args : Args) (config : Config)
    (out_dir pdf_path : Path) : ProcessResult :=
  process_stages W args config pdf_path (joinpath out_dir (stem pdf_path))
    (new_result pdf_path (joinpath out_dir (stem pdf_path))).

(** * Sample inputs *)

(** A file in the current directory. *)
Definition file_named (n : string) : Path :=
  {| parent := []; name := lit n |}.

(** A file system where every path is a regular file and every call
    succeeds. *)
Definition only_files : FileSystem :=
  {| is_file := fun _ => true;
     is_dir := fun _ => false;
     glob_pdf := fun _ => [];
     mkdir := fun _ => Ok ();
     exists_path := fun _ => true;
     st_size := fun _ => 4096%Z;
     dump_json := fun _ => Ok () |}.

(** A file system where every path is a directory under which the glob
    yields [files]. *)
Definition directory_of (files : list Path) : FileSystem :=
  {| is_file := fun _ => false;
     is_dir := fun _ => true;
     glob_pdf := fun _ => files;
     mkdir := fun _ => Ok ();
     exists_path := fun _ => true;
     st_size := fun _ => 4096%Z;
     dump_json := fun _ => Ok () |}.

(** A document of one page of text. *)
Definition one_page : PdfPlumber :=
  {| pdf_open := fun _ => Ok [Ok (Some (lit "Compounds 12, A1 and 3."))] |}.

(** A document that cannot be opened. *)
Definition unreadable : PdfPlumber :=
  {| pdf_open := fun _ => Raise (lit "No /Root object") |}.

(** An engine whose first identifier pattern finds [12], [A1] and [3],
    in the order of the text, and whose other patterns find nothing. *)
Definition finds_three : Regex :=
  {| search_experimental := fun _ _ => None;
     search_keyword := fun _ => false;
     findall_compound := fun k _ =>
       match k with
       | 0 => [lit "12"; lit "A1"; lit "3"]
       | _ => []
       end;
     findall_phys := fun _ _ => [];
     search_description := fun _ _ => None |}.

(** A candidate with an identifier, and one without. *)
Definition species (s : string) : Species := {| smiles := Some (lit s) |}.
Definition unread : Species := {| smiles := None |}.

(** A figure on the model's page 3 with two entries: the first has a
    reactant and a product identifier, the second a reactant identifier
    only. *)
Definition entry_complete : RawReaction :=
  {| reactants := Some [unread; species "CCO"; species "CCN"];
     products := Some [species "CC=O"];
     payload := 1 |}.
Definition entry_partial : RawReaction :=
  {| reactants := Some [species "c1ccccc1"];
     products := Some [unread; {| smiles := Some [] |}];
     payload := 2 |}.
Definition figure_two_entries : Figure :=
  {| fig_reactions := Some [entry_complete; entry_partial];
     fig_page := Some 3%Z |}.

(** Three accepted records; the reactant of the second is no
    structure identifier. *)
Definition reaction_of (id : Z) (reactant product : string) : Reaction :=
  {| reaction_id := id;
     page := 1;
     reactant_smiles := lit reactant;
     product_smiles := lit product;
     raw_data := entry_complete;
     reactant_image := None;
     product_image := None;
     images_generated := None |}.
Definition three_reactions : list Reaction :=
  [ reaction_of 1 "CCO" "CC=O";
    reaction_of 2 "C1CC" "CCN";
    reaction_of 3 "c1ccccc1" "Cc1ccccc1" ].

(** An RDKit that parses everything but [C1CC], and draws and saves
    whatever it parsed. *)
Definition parses_but_one : RDKit :=
  {| rdkit_available := true;
     MolFromSmiles := fun s => Ok (negb (str_eqb s (lit "C1CC")));
     draw_and_save := fun _ _ => Ok () |}.

(** The record of a document whose experimental text is [text]. *)
Definition info_with_text (text : str) : ExtractedTextInfo :=
  {| experimental_text := text;
     compounds := [lit "12"];
     physical_props := [];
     compound_descriptions := [];
     total_pages := 9;
     pages_processed := 5;
     source_pdf := file_named "paper.pdf";
     error := None |}.

(** Six thousand characters: the line [compound 12 was prepared.] and
    lines of [x] after it. *)
Definition long_text : str :=
  lit "compound 12 was prepared." ++ [chr_newline]
  ++ concat (replicate 59 (replicate 100 120%N ++ [chr_newline]))
  ++ replicate 15 120%N.

(** A python-docx that opens and saves every document and can insert
    no picture. *)
Definition no_pictures : Docx :=
  {| docx_available := true;
     open_template := fun _ => Ok [];
     new_document := [];
     add_text := fun _ => Ok ();
     add_picture := fun _ => Raise (lit "cannot identify image file");
     save := fun _ _ => Ok () |}.

(** A python-docx that is not installed. *)
Definition no_docx : Docx :=
  {| docx_available := false;
     open_template := fun _ => Ok [];
     new_document := [];
     add_text := fun _ => Ok ();
     add_picture := fun _ => Ok ();
     save := fun _ _ => Ok () |}.

(** The message of lxml for a text that XML cannot hold. *)
Definition xml_refusal : str :=
  lit "All strings must be XML compatible: "
  ++ lit "Unicode or ASCII, no NULL bytes or control characters".

(** A python-docx that opens and saves every document, inserts every
    picture, and refuses a text with a control character other than
    the tab and the two line ends. *)
Definition refuses_controls : Docx :=
  {| docx_available := true;
     open_template := fun _ => Ok [];
     new_document := [];
     add_text := fun text =>
       if forallb
            (fun c => (32 <=? c)%N || (c =? 9)%N || (c =? 10)%N
                      || (c =? 13)%N) text
       then Ok ()
       else Raise xml_refusal;
     add_picture := fun _ => Ok ();
     save := fun _ _ => Ok () |}.

(** The first of the three records once its two pictures are made. *)
Definition rendered_reaction : Reaction :=
  render_reaction parses_but_one (file_named "reaction_images")
    (reaction_of 1 "CCO" "CC=O").

(** A python-docx that opens, inserts and saves everything, except
    that it cannot save under a directory named [first]. *)
Definition saves_but_first : Docx :=
  {| docx_available := true;
     open_template := fun _ => Ok [];
     new_document := [];
     add_text := fun _ => Ok ();
     add_picture := fun _ => Ok ();
     save := fun _ file =>
       if existsb (str_eqb (lit "first")) (parent file)
       then Raise (lit "[Errno 28] No space left on device")
       else Ok () |}.

(** An output directory under which [first.pdf] and [second.pdf] are
    found, and where directories can be made unless [clash] is set, in
    which case a regular file already has the name of the directory
    that [first.pdf] needs. *)
Definition two_files (clash : bool) : FileSystem :=
  {| is_file := fun _ => false;
     is_dir := fun _ => true;
     glob_pdf := fun _ => [file_named "first.pdf"; file_named "second.pdf"];
     mkdir := fun dir =>
       if clash && str_eqb (name dir) (lit "first")
       then Raise (lit "[Errno 17] File exists: 'results/first'")
       else Ok ();
     exists_path := fun _ => true;
     st_size := fun _ => 40960%Z;
     dump_json := fun _ => Ok () |}.

(** A world in which every collaborator does its work on every file,
    but for the saving of the first file's document. *)
Definition two_file_world (clash : bool) : World :=
  {| fs := two_files clash;
     import_pdfplumber := Ok ();
     pdfplumber := one_page;
     regex := finds_three;
     iter_set := fun s => s;
     openchemie :=
       {| extract_reactions_from_figures_in_pdf :=
            fun _ _ => Ok [figure_two_entries] |};
     rdkit := parses_but_one;
     docx := saves_but_first;
     write_report := fun _ => Ok () |}.

Definition batch_args : Args :=
  {| input := file_named "pdfs";
     output := file_named "results";
     max_pages := 5;
     no_images := false;
     include_si := false;
     language := lit "both";
     template := None |}.

Definition no_config : Config := {| save_raw_data := false |}.

(** The same world in an installation without pdfplumber. *)
Definition without_pdfplumber (W : World) : World :=
  {| fs := fs W;
     import_pdfplumber := Raise (lit "No module named 'pdfplumber'");
     pdfplumber := pdfplumber W;
     regex := regex W;
     iter_set := iter_set W;
     openchemie := openchemie W;
     rdkit := rdkit W;
     docx := docx W;
     write_report := write_report W |}.

(** A recognition model that cannot be loaded. *)
Definition no_model : OpenChemIE :=
  {| extract_reactions_from_figures_in_pdf :=
       fun _ _ => Raise (lit "No module named 'torch'") |}.

(** * Further vocabulary and samples *)

(** The pages a call reads: those within the budget (lines 145-150). *)
Definition pages_read (pages : list (Exc (option str))) (max_pages : Z)
    : list (Exc (option str)) :=
  take (Z.to_nat (Z.min max_pages (Z.of_nat (length pages)))) pages.

(** The text of the pages read: each text that is not empty, followed
    by a blank line. *)
Fixpoint corpus (pages : list (Exc (option str))) : str :=
  match pages with
  | [] => []
  | Ok (Some t) :: rest =>
      (if truthy t then t ++ [chr_newline; chr_newline] else [])
      ++ corpus rest
  | _ :: rest => corpus rest
  end.

(** An identifier the extractor keeps: more than one character, or a
    digit (line 197). *)
Definition kept_identifier (c : str) : Prop :=
  1 < length c \/ isdigit c = true.

(** An engine whose second heading pattern finds a section, and whose
    third would find another. *)
Definition finds_synthesis : Regex :=
  {| search_experimental := fun k _ =>
       match k with
       | 1 => Some (lit "  Compound 12 was prepared. ")
       | 2 => Some (lit "General procedure A.")
       | _ => None
       end;
     search_keyword := fun _ => true;
     findall_compound := fun _ _ => [];
     findall_phys := fun _ _ => [];
     search_description := fun _ _ => None |}.

(** A raw entry with both a first reactant and a first product
    identifier, and a figure without its other entries. *)
Definition has_both (rxn : RawReaction) : bool := complete (0%Z, rxn).

Definition prune (fig : Figure) : Figure :=
  {| fig_reactions := option_map (List.filter has_both) (fig_reactions fig);
     fig_page := fig_page fig |}.

(** A record as the normalizer makes it: two identifiers, no image. *)
Definition fresh_record (r : Reaction) : Prop :=
  reactant_smiles r <> [] /\ product_smiles r <> []
  /\ images_generated r = None
  /\ reactant_image r = None /\ product_image r = None.

(** A world with another RDKit. *)
Definition with_rdkit (rd : RDKit) (W : World) : World :=
  {| fs := fs W;
     import_pdfplumber := import_pdfplumber W;
     pdfplumber := pdfplumber W;
     regex := regex W;
     iter_set := iter_set W;
     openchemie := openchemie W;
     rdkit := rd;
     docx := docx W;
     write_report := write_report W |}.

(** The paths of a file's document and of its raw-data dump (lines 555
    and 570), and the record of its text (line 538) where pdfplumber
    is installed. *)
Definition doc_path (out_dir pdf_path : Path) : Path :=
  joinpath (joinpath out_dir (stem pdf_path)) (stem pdf_path ++ txt_doc_suffix).

Definition raw_path (out_dir pdf_path : Path) : Path :=
  joinpath (joinpath out_dir (stem pdf_path))
    (stem pdf_path ++ lit "_raw_data.json").

Definition text_of (W : World) (args : Args) (pdf_path : Path)
    : ExtractedTextInfo :=
  extract_text_try (pdfplumber W) (regex W) (iter_set W) pdf_path
    (max_pages args).

(** A world like [two_file_world] in which python-docx saves
    everything, the raw data cannot be dumped, and RDKit is [rd]. *)
Definition dump_fails (rd : RDKit) (images_clash : bool) : World :=
  {| fs :=
       {| is_file := fun _ => false;
          is_dir := fun _ => true;
          glob_pdf := fun _ => [file_named "first.pdf"];
          mkdir := fun dir =>
            if images_clash && str_eqb (name dir) (lit "reaction_images")
            then Raise (lit "[Errno 13] Permission denied")
            else Ok ();
          exists_path := fun _ => true;
          st_size := fun _ => 40960%Z;
          dump_json := fun _ =>
            Raise (lit "Object of type Tensor is not JSON serializable") |};
     import_pdfplumber := Ok ();
     pdfplumber := one_page;
     regex := finds_three;
     iter_set := fun s => s;
     openchemie :=
       {| extract_reactions_from_figures_in_pdf :=
            fun _ _ => Ok [figure_two_entries] |};
     rdkit := rd;
     docx :=
       {| docx_available := true;
          open_template := fun _ => Ok [];
          new_document := [];
          add_text := fun _ => Ok ();
          add_picture := fun _ => Ok ();
          save := fun _ _ => Ok () |};
     write_report := fun _ => Ok () |}.

Definition raw_config : Config := {| save_raw_data := true |}.

(** An RDKit that is not installed. *)
Definition no_rdkit : RDKit :=
  {| rdkit_available := false;
     MolFromSmiles := fun _ => Raise (lit "No module named 'rdkit'");
     draw_and_save := fun _ _ => Raise (lit "No module named 'rdkit'") |}.

Definition batch_args_no_images : Args :=
  {| input := file_named "pdfs";
     output := file_named "results";
     max_pages := 5;
     no_images := true;
     include_si := false;
     language := lit "both";
     template := None |}.

(** [two_file_world] with a recognition model that cannot be loaded. *)
Definition world_without_model : World :=
  {| fs := two_files false;
     import_pdfplumber := Ok ();
     pdfplumber := one_page;
     regex := finds_three;
     iter_set := fun s => s;
     openchemie := no_model;
     rdkit := parses_but_one;
     docx := saves_but_first;
     write_report := fun _ => Ok () |}.




(** The picture files a record names. *)
Definition image_files (r : Reaction) : list Path :=
  option_list (reactant_image r) ++ option_list (product_image r).

(** * Properties *)

(** ** Strings *)

Lemma char_eqb_eq a b : char_eqb a b = true <-> a = b.
Proof. unfold char_eqb. apply N.eqb_eq. Qed.

Lemma str_eqb_eq s t : str_eqb s t = true <-> s = t.
Proof.
  revert t. induction s as [|a s IH]; intros [|b t]; simpl;
    try (split; (discriminate || reflexivity)).
  rewrite andb_true_iff, char_eqb_eq, IH. split.
  - intros [-> ->]. reflexivity.
  - intros [= -> ->]. split; reflexivity.
Qed.

Lemma str_eqb_refl s : str_eqb s s = true.
Proof. apply str_eqb_eq. reflexivity. Qed.

(** [rfind] over a concatenation looks in the right part first. *)
Lemma rfind_from_app c s t i :
  rfind_from c (s ++ t) i =
    match rfind_from c t (i + length s) with
    | Some j => Some j
    | None => rfind_from c s i
    end.
Proof.
  revert i. induction s as [|a s IH]; intros i; simpl.
  - rewrite Nat.add_0_r. destruct (rfind_from c t i); reflexivity.
  - rewrite IH. replace (S i + length s) with (i + S (length s)) by lia.
    destruct (rfind_from c t (i + S (length s))); reflexivity.
Qed.

(** What [lower_char] can return. *)
Lemma lower_char_shape c :
  lower_char c = [105; 775]%N \/
  exists x, lower_char c = [x]
    /\ (x = c \/ x = 107%N \/ (x = (c + 32)%N /\ (65 <= c <= 90)%N)).
Proof.
  unfold lower_char.
  destruct ((65 <=? c)%N && (c <=? 90)%N) eqn:Hup.
  - apply andb_true_iff in Hup as [H1 H2].
    apply N.leb_le in H1. apply N.leb_le in H2.
    right. exists (c + 32)%N. split; [reflexivity|]. right. right. lia.
  - destruct (c =? 304)%N; [left; reflexivity|].
    destruct (c =? 8490)%N; right; eexists; split; try reflexivity; auto.
Qed.

(** One character of a string whose lower case is known. *)
Ltac lower_step H c E Hx :=
  let x := fresh "x" in
  simpl in H;
  destruct (lower_char_shape c) as [E|(x & E & Hx)];
  rewrite E in H; simpl in H; [discriminate H|];
  injection H as -> H.

(** A suffix that lowers to [.pdf] is a dot and three letters. *)
Lemma lower_pdf ext :
  lower ext = lit ".pdf" ->
  exists c2 c3 c4,
    ext = [chr_dot; c2; c3; c4]
    /\ c2 <> chr_dot /\ c3 <> chr_dot /\ c4 <> chr_dot.
Proof.
  unfold lower, chr_dot. change (lit ".pdf") with [46; 112; 100; 102]%N.
  intros H.
  destruct ext as [|c1 ext]; [discriminate H|]. lower_step H c1 E1 H1.
  destruct ext as [|c2 ext]; [discriminate H|]. lower_step H c2 E2 H2.
  destruct ext as [|c3 ext]; [discriminate H|]. lower_step H c3 E3 H3.
  destruct ext as [|c4 ext]; [discriminate H|]. lower_step H c4 E4 H4.
  destruct ext as [|c5 ext].
  - exists c2, c3, c4. repeat split; [f_equal; lia | lia ..].
  - simpl in H.
    destruct (lower_char_shape c5) as [E|(x & E & _)];
      rewrite E in H; discriminate H.
Qed.

(** ** Finding the input files *)

Lemma char_eqb_neq a b : a <> b -> char_eqb a b = false.
Proof. intros H. apply not_true_is_false. rewrite char_eqb_eq. exact H. Qed.

(** The suffix of a name that ends in an extension [.pdf], in any
    case, after something. *)
Lemma suffix_of_extension p pre ext :
  name p = pre ++ ext -> pre <> [] -> lower ext = lit ".pdf" ->
  suffix p = ext.
Proof.
  intros Hname Hpre Hext.
  destruct (lower_pdf ext Hext) as (c2 & c3 & c4 & -> & H2 & H3 & H4).
  unfold suffix, rfind. rewrite Hname, rfind_from_app. simpl.
  rewrite (char_eqb_neq c2), (char_eqb_neq c3), (char_eqb_neq c4) by assumption.
  assert (0 < length pre) by (destruct pre; [congruence | simpl; lia]).
  rewrite length_app. simpl.
  replace (0 <? length pre) with true by (symmetry; apply Nat.ltb_lt; lia).
  replace (S (length pre) <? length pre + 4) with true
    by (symmetry; apply Nat.ltb_lt; lia).
  simpl. apply drop_app_length.
Qed.

(** The loop over the files of a directory is a filter. *)
Lemma fold_skip_filter {A} (skip : A -> bool) (l acc : list A) :
  fold_left (fun fs f => if skip f then fs else fs ++ [f]) l acc =
    acc ++ List.filter (fun f => negb (skip f)) l.
Proof.
  revert acc. induction l as [|f l IH]; intros acc; simpl.
  - rewrite app_nil_r. reflexivity.
  - rewrite IH. destruct (skip f); simpl; [reflexivity|].
    rewrite <- app_assoc. reflexivity.
Qed.

(** C10 (as amended): the exclusion of supplementary-information files
    belongs to the directory branch alone.  A single file whose name is
    something not empty followed by [.pdf], in any case, is the whole
    batch, whatever its name contains and whatever the option says;
    under a directory the batch is what the glob yields, without the
    files whose name contains [SI] unless the option is on. *)
Theorem find_pdf_files_supplementary fs input_path si :
  (is_file fs input_path = true ->
   forall pre ext,
     name input_path = pre ++ ext -> pre <> [] -> lower ext = lit ".pdf" ->
     find_pdf_files fs input_path si = [input_path])
  /\ (is_file fs input_path = false -> is_dir fs input_path = true ->
      find_pdf_files fs input_path si =
        List.filter (fun f => si || negb (contains (name f) (lit "SI")))
          (glob_pdf fs input_path)).
Proof.
  split.
  - intros Hfile pre ext Hname Hpre Hext. unfold find_pdf_files.
    rewrite Hfile, (suffix_of_extension _ pre ext Hname Hpre Hext), Hext.
    rewrite str_eqb_refl. reflexivity.
  - intros Hfile Hdir. unfold find_pdf_files. rewrite Hfile, Hdir.
    rewrite (fold_skip_filter
               (fun f => negb si && contains (name f) (lit "SI"))).
    simpl. apply filter_ext. intros f.
    destruct si, (contains (name f) (lit "SI")); reflexivity.
Qed.

Lemma find_pdf_files_supplementary_witness :
  find_pdf_files only_files (file_named "route_SI.PDF") false
    = [file_named "route_SI.PDF"]
  /\ find_pdf_files
       (directory_of [file_named "a.pdf"; file_named "a_SI.pdf"])
       (file_named "pdfs") false
     = [file_named "a.pdf"].
Proof.
  split.
  - apply (proj1 (find_pdf_files_supplementary only_files
                    (file_named "route_SI.PDF") false)
             eq_refl (lit "route_SI") (lit ".PDF"));
      [reflexivity | discriminate | reflexivity].
  - rewrite (proj2 (find_pdf_files_supplementary
                      (directory_of [file_named "a.pdf"; file_named "a_SI.pdf"])
                      (file_named "pdfs") false) eq_refl eq_refl).
    reflexivity.
Defined.

(** C10, as it was stated, fails for the file whose whole name is
    [.pdf]: the name ends in [.pdf], [pathlib] gives it no suffix, and
    the file is left out whatever the option says. *)
Lemma find_pdf_files_bare_extension :
  is_file only_files (file_named ".pdf") = true
  /\ lower (name (file_named ".pdf")) = lit ".pdf"
  /\ suffix (file_named ".pdf") = []
  /\ find_pdf_files only_files (file_named ".pdf") false = []
  /\ find_pdf_files only_files (file_named ".pdf") true = [].
Proof. repeat split. Qed.

(** ** The order of strings and of sort keys *)

Lemma str_compare_refl s : str_compare s s = Eq.
Proof.
  induction s as [|a s IH]; simpl; [reflexivity|].
  rewrite N.compare_refl. exact IH.
Qed.

Lemma str_compare_eq s t : str_compare s t = Eq -> s = t.
Proof.
  revert t. induction s as [|a s IH]; intros [|b t]; simpl;
    try discriminate; [reflexivity|].
  destruct (N.compare_spec a b) as [->| |]; try discriminate.
  intros H. f_equal. apply IH, H.
Qed.

Lemma str_compare_opp s t : str_compare t s = CompOpp (str_compare s t).
Proof.
  revert t. induction s as [|a s IH]; intros [|b t]; simpl;
    try reflexivity.
  rewrite (N.compare_antisym a b).
  destruct (a ?= b)%N; simpl; auto.
Qed.

Lemma str_le_trans s t u : str_le s t -> str_le t u -> str_le s u.
Proof.
  unfold str_le. revert t u.
  induction s as [|a s IH]; intros [|b t] [|c u]; simpl;
    try congruence.
  destruct (N.compare_spec a b) as [->|Hab|Hab]; try congruence.
  - destruct (N.compare_spec b c) as [->|Hbc|Hbc]; try congruence.
    apply IH.
  - intros _.
    destruct (N.compare_spec b c) as [->|Hbc|Hbc]; try congruence; intros _.
    + apply N.compare_lt_iff in Hab. rewrite Hab. congruence.
    + assert (Hac : (a < c)%N) by lia.
      apply N.compare_lt_iff in Hac. rewrite Hac. congruence.
Qed.

Lemma str_le_total s t : str_le s t \/ str_le t s.
Proof.
  unfold str_le. rewrite (str_compare_opp s t).
  destruct (str_compare s t); simpl; intuition congruence.
Qed.

Lemma str_le_antisym s t : str_le s t -> str_le t s -> s = t.
Proof.
  unfold str_le. rewrite (str_compare_opp s t). intros H1 H2.
  apply str_compare_eq. destruct (str_compare s t); simpl in *; congruence.
Qed.

(** In words: an identifier that is not numeric stands before any that
    is, and within a group the strings grow. *)
Lemma compound_le_spec x y :
  compound_le x y <->
    (isnumeric x = false /\ isnumeric y = true)
    \/ (isnumeric x = isnumeric y /\ str_le x y).
Proof.
  unfold compound_le, key_leb, key_compare, compound_key, str_le. simpl.
  destruct (isnumeric x), (isnumeric y), (str_compare x y);
    intuition congruence.
Qed.

#[local] Instance compound_le_trans : Transitive compound_le.
Proof.
  intros x y z. rewrite !compound_le_spec.
  intros [[Hx Hy]|[Hxy Hle1]] [[Hy' Hz]|[Hyz Hle2]].
  - congruence.
  - left. split; congruence.
  - left. split; congruence.
  - right. split; [congruence|]. eapply str_le_trans; eassumption.
Qed.

#[local] Instance compound_le_total : Total compound_le.
Proof.
  intros x y. rewrite !compound_le_spec.
  destruct (isnumeric x) eqn:Hx, (isnumeric y) eqn:Hy;
    destruct (str_le_total x y); intuition.
Qed.

#[local] Instance compound_le_antisym : AntiSymm (=) compound_le.
Proof.
  intros x y. rewrite !compound_le_spec.
  intros [[Hx Hy]|[Hxy Hle1]] [[Hy' Hx']|[Hyx Hle2]]; try congruence.
  apply str_le_antisym; assumption.
Qed.

(** ** [sorted] *)

Lemma insert_by_perm {A} (f : A -> bool * str) x l :
  insert_by f x l ≡ₚ x :: l.
Proof.
  induction l as [|y l IH]; simpl; [reflexivity|].
  destruct (key_leb (f y) (f x)); [|reflexivity].
  rewrite IH. apply Permutation_swap.
Qed.

Lemma sorted_from_perm {A} (f : A -> bool * str) xs acc :
  fold_left (fun acc x => insert_by f x acc) xs acc ≡ₚ acc ++ xs.
Proof.
  revert acc. induction xs as [|x xs IH]; intros acc; simpl.
  - rewrite app_nil_r. reflexivity.
  - rewrite IH, insert_by_perm. simpl. apply Permutation_middle.
Qed.

Lemma sorted_perm {A} (f : A -> bool * str) xs : sorted f xs ≡ₚ xs.
Proof. unfold sorted. rewrite sorted_from_perm. reflexivity. Qed.

Lemma insert_compound_sorted x l :
  StronglySorted compound_le l ->
  StronglySorted compound_le (insert_by compound_key x l).
Proof.
  induction 1 as [|y l Hl IH Hy]; simpl.
  - repeat constructor.
  - destruct (key_leb (compound_key y) (compound_key x)) eqn:Hyx.
    + constructor; [exact IH|].
      rewrite insert_by_perm. constructor; [exact Hyx | exact Hy].
    + assert (Hxy : compound_le x y).
      { destruct (total compound_le x y) as [H|H]; [exact H|].
        unfold compound_le in H. congruence. }
      constructor; [constructor; assumption|].
      constructor; [exact Hxy|].
      eapply Forall_impl; [exact Hy|].
      intros z Hz. etransitivity; eassumption.
Qed.

Lemma sorted_from_compound_sorted xs acc :
  StronglySorted compound_le acc ->
  StronglySorted compound_le
    (fold_left (fun acc x => insert_by compound_key x acc) xs acc).
Proof.
  revert acc. induction xs as [|x xs IH]; intros acc Hacc; simpl.
  - exact Hacc.
  - apply IH, insert_compound_sorted, Hacc.
Qed.

Lemma sorted_compound_sorted xs :
  StronglySorted compound_le (sorted compound_key xs).
Proof. apply sorted_from_compound_sorted. constructor. Qed.

(** Two elements of a sorted list, the earlier and the later. *)
Lemma StronglySorted_lookup_lt {A} (R : relation A) l i j a b :
  StronglySorted R l -> i < j -> l !! i = Some a -> l !! j = Some b ->
  R a b.
Proof.
  intros Hl. revert i j. induction Hl as [|x l Hl IH Hx]; intros i j Hij.
  - intros Hi. rewrite lookup_nil in Hi. discriminate.
  - destruct j as [|j]; [lia|]. destruct i as [|i]; simpl.
    + intros [= ->] Hb. rewrite Forall_forall in Hx.
      apply Hx. eapply list_elem_of_lookup_2. exact Hb.
    + apply IH. lia.
Qed.

(** ** What the extractor returns *)

(** The function returns exactly when pdfplumber can be imported, and
    then returns the record of its [try] statement. *)
Lemma extract_text_info_returns imp pp re iter pdf_path max_pages info :
  extract_text_info imp pp re iter pdf_path max_pages = Ok info <->
  imp = Ok () /\ info = extract_text_try pp re iter pdf_path max_pages.
Proof.
  unfold extract_text_info. destruct imp as [[]|e]; cbn [mbind exc_bind].
  - split.
    + intros [= <-]. split; reflexivity.
    + intros [_ ->]. reflexivity.
  - split; [discriminate|]. intros [H _]. discriminate H.
Qed.

Lemma extract_text_info_raises imp pp re iter pdf_path max_pages e :
  extract_text_info imp pp re iter pdf_path max_pages = Raise e <->
  imp = Raise e.
Proof.
  unfold extract_text_info. destruct imp as [[]|e']; cbn [mbind exc_bind].
  - split; discriminate.
  - split; intros [= ->]; reflexivity.
Qed.

Lemma read_pages_outcome pages all_text :
  match read_pages pages all_text with
  | Ok _ => first_raise pages = None
  | Raise e => first_raise pages = Some e
  end.
Proof.
  revert all_text. induction pages as [|[text|e] pages IH]; intros all_text;
    simpl; try reflexivity.
  destruct text as [t|]; [destruct (truthy t)|]; apply IH.
Qed.

(** The body of the [try] raises exactly what goes wrong while the
    document is read, and otherwise returns a record without error that
    counts the pages as line 145 does. *)
Lemma extract_text_body_outcome pp re iter pdf_path max_pages :
  match extract_text_body pp re iter pdf_path max_pages with
  | Ok info =>
      extraction_failure pp pdf_path max_pages = None
      /\ error info = None
      /\ exists pages,
           pdf_open pp pdf_path = Ok pages
           /\ total_pages info = Z.of_nat (length pages)
           /\ pages_processed info = Z.min max_pages (total_pages info)
  | Raise e => extraction_failure pp pdf_path max_pages = Some e
  end.
Proof.
  unfold extract_text_body, extraction_failure.
  destruct (pdf_open pp pdf_path) as [pages|e]; simpl; [|reflexivity].
  pose proof (read_pages_outcome
                (take (Z.to_nat (Z.min max_pages (Z.of_nat (length pages))))
                   pages) []) as Hread.
  destruct (read_pages _ _) as [all_text|e]; simpl; [|exact Hread].
  split; [exact Hread|]. split; [reflexivity|].
  exists pages. repeat split.
Qed.

Lemma read_pages_corpus pages all_text :
  first_raise pages = None ->
  read_pages pages all_text = Ok (all_text ++ corpus pages).
Proof.
  revert all_text.
  induction pages as [|[[t|]|e] pages IH]; intros all_text; simpl.
  - intros _. rewrite app_nil_r. reflexivity.
  - intros H. destruct (truthy t); rewrite (IH _ H).
    + rewrite <- !app_assoc. reflexivity.
    + reflexivity.
  - apply IH.
  - discriminate.
Qed.

(** The record of a document that is read without an exception. *)
Lemma extract_text_try_of_corpus pp re iter pdf_path max_pages pages :
  pdf_open pp pdf_path = Ok pages ->
  first_raise (pages_read pages max_pages) = None ->
  extract_text_try pp re iter pdf_path max_pages
  = {| experimental_text :=
         (if truthy (first_experimental re (seq 0 3)
                       (corpus (pages_read pages max_pages)))
          then first_experimental re (seq 0 3)
                 (corpus (pages_read pages max_pages))
          else fallback_experimental re
                 (corpus (pages_read pages max_pages)));
       compounds :=
         sorted compound_key
           (iter (find_compounds re (corpus (pages_read pages max_pages))));
       physical_props :=
         take 10 (find_phys_props re (corpus (pages_read pages max_pages)));
       compound_descriptions :=
         describe_compounds re iter
           (find_compounds re (corpus (pages_read pages max_pages)))
           (corpus (pages_read pages max_pages));
       total_pages := Z.of_nat (length pages);
       pages_processed := Z.min max_pages (Z.of_nat (length pages));
       source_pdf := pdf_path;
       error := None |}.
Proof.
  intros Hopen Hread. unfold extract_text_try, extract_text_body.
  rewrite Hopen. cbn [mbind exc_bind].
  fold (pages_read pages max_pages).
  rewrite (read_pages_corpus _ [] Hread). reflexivity.
Qed.

(** The record of a document that is not. *)
Lemma extract_text_try_default pp re iter pdf_path max_pages e :
  extraction_failure pp pdf_path max_pages = Some e ->
  extract_text_try pp re iter pdf_path max_pages
  = default_text_info pdf_path e.
Proof.
  intros Hfail. unfold extract_text_try.
  pose proof (extract_text_body_outcome pp re iter pdf_path max_pages) as H.
  destruct (extract_text_body pp re iter pdf_path max_pages) as [info|e'].
  - destruct H as (Hnone & _). congruence.
  - congruence.
Qed.

Lemma three_identifiers_sorted :
  StronglySorted compound_le [lit "A1"; lit "12"; lit "3"].
Proof.
  repeat first [ apply SSorted_nil | apply SSorted_cons
               | apply List.Forall_nil | apply List.Forall_cons ];
    vm_compute; reflexivity.
Qed.

(** ** The order of the compound identifiers *)

(** C2 (as amended): the compounds list the extractor returns is sorted
    by the key of line 228, under which an identifier that is not
    numeric stands before every numeric one and, within each group, the
    strings grow by code point.  When the document is read without an
    exception the list is a rearrangement of the identifiers found in
    the text of the pages read, as the set yields them, and the only
    sorted one, so it is the same whatever order the set yields them
    in; when [12], [A1] and [3] are found it is [A1], [12], [3].  When
    reading the document fails the list is empty. *)
Theorem compounds_sorted_by_key (imp : Exc unit) (pp : PdfPlumber)
    (re : Regex) (iter : list str -> list str) (pdf_path : Path)
    (max_pages : Z) (info : ExtractedTextInfo) :
  extract_text_info imp pp re iter pdf_path max_pages = Ok info ->
  StronglySorted compound_le (compounds info)
  /\ (forall i j a b,
        i < j ->
        compounds info !! i = Some a ->
        compounds info !! j = Some b ->
        (isnumeric a = false /\ isnumeric b = true)
        \/ (isnumeric a = isnumeric b /\ str_le a b))
  /\ (forall pages,
        pdf_open pp pdf_path = Ok pages ->
        first_raise (pages_read pages max_pages) = None ->
        compounds info
          ≡ₚ iter (find_compounds re (corpus (pages_read pages max_pages)))
        /\ (forall l,
              l ≡ₚ iter (find_compounds re
                           (corpus (pages_read pages max_pages))) ->
              StronglySorted compound_le l ->
              compounds info = l)
        /\ (iter (find_compounds re (corpus (pages_read pages max_pages)))
              ≡ₚ [lit "12"; lit "A1"; lit "3"] ->
            compounds info = [lit "A1"; lit "12"; lit "3"]))
  /\ (forall e,
        extraction_failure pp pdf_path max_pages = Some e ->
        compounds info = []).
Proof.
  intros Hret. apply extract_text_info_returns in Hret as [_ ->].
  assert (Hsorted : StronglySorted compound_le
            (compounds (extract_text_try pp re iter pdf_path max_pages))).
  { unfold extract_text_try.
    destruct (extract_text_body pp re iter pdf_path max_pages)
      as [info|e] eqn:Hbody.
    - unfold extract_text_body in Hbody.
      destruct (pdf_open pp pdf_path) as [pages|]; [|discriminate Hbody].
      simpl in Hbody.
      destruct (read_pages _ _) as [all_text|]; [|discriminate Hbody].
      simpl in Hbody. injection Hbody as <-. simpl.
      apply sorted_compound_sorted.
    - simpl. constructor. }
  split; [exact Hsorted|]. split.
  { intros i j a b Hij Ha Hb. apply compound_le_spec.
    exact (StronglySorted_lookup_lt compound_le _ i j a b Hsorted Hij Ha Hb). }
  split.
  { intros pages Hopen Hread.
    assert (Hperm :
      compounds (extract_text_try pp re iter pdf_path max_pages)
        ≡ₚ iter (find_compounds re (corpus (pages_read pages max_pages)))).
    { rewrite (extract_text_try_of_corpus pp re iter pdf_path max_pages
                 pages Hopen Hread).
      cbn [compounds]. apply sorted_perm. }
    assert (Hunique : forall l,
      l ≡ₚ iter (find_compounds re (corpus (pages_read pages max_pages))) ->
      StronglySorted compound_le l ->
      compounds (extract_text_try pp re iter pdf_path max_pages) = l).
    { intros l Hl Hsl.
      apply (StronglySorted_unique compound_le); [exact Hsorted | exact Hsl |].
      rewrite Hperm, Hl. reflexivity. }
    split; [exact Hperm|]. split; [exact Hunique|].
    intros Hthree. apply Hunique; [|exact three_identifiers_sorted].
    rewrite Hthree.
    apply perm_swap. }
  intros e Hfail.
  rewrite (extract_text_try_default pp re iter pdf_path max_pages e Hfail).
  reflexivity.
Qed.

Lemma compounds_sorted_by_key_witness :
  compounds
    (extract_text_try one_page finds_three (fun s => s)
       (file_named "paper.pdf") 5)
  = [lit "A1"; lit "12"; lit "3"].
Proof.
  destruct (compounds_sorted_by_key (Ok ()) one_page finds_three
              (fun s => s) (file_named "paper.pdf") 5 _ eq_refl)
    as (_ & _ & Hfound & _).
  destruct (Hfound [Ok (Some (lit "Compounds 12, A1 and 3."))]
              eq_refl eq_refl) as (_ & _ & Hthree).
  apply Hthree. reflexivity.
Defined.

(** C2, as it was stated, fails on its own example: whatever order the
    set yields [12], [A1] and [3] in, the sorted list is [A1], [12],
    [3], the identifier that is not numeric first, and so is the
    compounds list the extractor returns for a document in which these
    three are found. *)
Lemma compounds_numeric_last :
  Forall
    (fun found =>
       sorted compound_key found = [lit "A1"; lit "12"; lit "3"])
    (permutations [lit "12"; lit "A1"; lit "3"])
  /\ (exists info,
        extract_text_info (Ok ()) one_page finds_three (fun s => s)
          (file_named "paper.pdf") 5 = Ok info
        /\ compounds info = [lit "A1"; lit "12"; lit "3"])
  /\ map isnumeric [lit "A1"; lit "12"; lit "3"] = [false; true; true]
  /\ [lit "A1"; lit "12"; lit "3"] <> [lit "3"; lit "12"; lit "A1"].
Proof.
  split; [|split; [|split]].
  - set (l := permutations _). vm_compute in l. subst l.
    repeat (apply List.Forall_cons; [vm_compute; reflexivity|]).
    apply List.Forall_nil.
  - eexists. split; [reflexivity|]. vm_compute. reflexivity.
  - vm_compute. reflexivity.
  - discriminate.
Qed.

(** ** The extractor's failures and its page counts *)

(** C4, where the code departs from it: in an installation without
    pdfplumber the statement [import pdfplumber] of line 137 raises; it
    stands before the [try] of line 142, so the exception leaves
    [extract_text_info] and no default record is returned.  The handler
    of [process_pdf] catches it: the file fails with that one error,
    without a text summary, and neither reaction extraction nor the
    document is attempted.  The two sibling stages guard their imports:
    without RDKit the image stage returns the records as they are, and
    without python-docx the assembler returns failure. *)
Theorem extract_text_info_import_escapes :
  extract_text_info (Raise (lit "No module named 'pdfplumber'")) one_page
    finds_three (fun s => s) (file_named "paper.pdf") 5
  = Raise (lit "No module named 'pdfplumber'")
  /\ (forall e pp re iter pdf_path max_pages,
        extract_text_info (Raise e) pp re iter pdf_path max_pages = Raise e)
  /\ process_pdf (without_pdfplumber (two_file_world false)) batch_args
       no_config (file_named "second.pdf") (output batch_args)
     = Ok (append_error (lit "No module named 'pdfplumber'")
             (new_result (file_named "second.pdf")
                (joinpath (output batch_args) (lit "second"))))
  /\ (exists r,
        process_pdf (two_file_world false) batch_args no_config
          (file_named "second.pdf") (output batch_args) = Ok r
        /\ success r = true /\ is_Some (text_info r))
  /\ generate_reaction_images no_rdkit only_files three_reactions
       (file_named "out")
     = Ok three_reactions
  /\ create_word_document no_docx only_files (info_with_text long_text)
       three_reactions (file_named "out.docx") (lit "both") None
     = Ok {| returned := false; saved := None |}.
Proof.
  split; [reflexivity|]. split; [reflexivity|].
  split; [vm_compute; reflexivity|]. split.
  - eexists. split; [vm_compute; reflexivity|]. split; [reflexivity|].
    eexists. reflexivity.
  - split; reflexivity.
Qed.

(** Where pdfplumber can be imported the extractor returns a record
    whatever goes wrong while the document is read; the [error] of the
    record is the message of what went wrong; and a record with an
    error is the default one, whose experimental text, compounds,
    physical properties and compound descriptions are all empty. *)
Theorem extract_text_info_failure_default (pp : PdfPlumber) (re : Regex)
    (iter : list str -> list str) (pdf_path : Path) (max_pages : Z) :
  exists info,
    extract_text_info (Ok ()) pp re iter pdf_path max_pages = Ok info
    /\ error info = extraction_failure pp pdf_path max_pages
    /\ (forall e,
          extraction_failure pp pdf_path max_pages = Some e ->
          info = default_text_info pdf_path e)
    /\ (is_Some (error info) ->
        experimental_text info = []
        /\ compounds info = []
        /\ physical_props info = []
        /\ compound_descriptions info = []).
Proof.
  exists (extract_text_try pp re iter pdf_path max_pages).
  split; [reflexivity|].
  unfold extract_text_try.
  pose proof (extract_text_body_outcome pp re iter pdf_path max_pages) as H.
  destruct (extract_text_body pp re iter pdf_path max_pages) as [info|e].
  - destruct H as (Hnone & Herr & _). rewrite Hnone, Herr.
    split; [reflexivity|]. split; [discriminate|].
    intros [e He]. discriminate He.
  - rewrite H. simpl. split; [reflexivity|]. split.
    + intros e' [= <-]. reflexivity.
    + intros _. repeat split.
Qed.

(** C9 (as amended): in every record the extractor returns, the pages
    processed never exceed the pages of the document, and they never
    exceed the page budget when the budget is not negative or the
    extraction did not fail. *)
Theorem pages_processed_bounds (imp : Exc unit) (pp : PdfPlumber)
    (re : Regex) (iter : list str -> list str) (pdf_path : Path)
    (max_pages : Z) (info : ExtractedTextInfo) :
  extract_text_info imp pp re iter pdf_path max_pages = Ok info ->
  (pages_processed info <= total_pages info)%Z
  /\ ((0 <= max_pages)%Z \/ error info = None ->
      (pages_processed info <= max_pages)%Z).
Proof.
  intros Hret. apply extract_text_info_returns in Hret as [_ ->].
  unfold extract_text_try.
  pose proof (extract_text_body_outcome pp re iter pdf_path max_pages) as H.
  destruct (extract_text_body pp re iter pdf_path max_pages) as [info|e].
  - destruct H as (_ & _ & pages & _ & Htotal & Hproc).
    rewrite Hproc. split; [|intros _]; lia.
  - simpl. split; [lia|]. intros [Hpos|Herr]; [exact Hpos | discriminate Herr].
Qed.

Lemma pages_processed_bounds_witness :
  (pages_processed
     (extract_text_try one_page finds_three (fun s => s)
        (file_named "paper.pdf") 5) <= 5)%Z.
Proof.
  apply (proj2 (pages_processed_bounds (Ok ()) one_page finds_three
                  (fun s => s) (file_named "paper.pdf") 5 _ eq_refl)).
  left. lia.
Defined.

(** C9, as it was stated, fails on the default record when the budget
    is negative: the record of a document that cannot be opened counts
    zero pages, which is more than a budget of [-1]. *)
Lemma pages_processed_over_negative_budget :
  exists info,
    extract_text_info (Ok ()) unreadable finds_three (fun s => s)
      (file_named "paper.pdf") (-1) = Ok info
    /\ pages_processed info = 0%Z
    /\ error info = Some (lit "No /Root object")
    /\ ~ (pages_processed info <= -1)%Z.
Proof.
  eexists. split; [reflexivity|].
  split; [reflexivity|]. split; [reflexivity|]. simpl. lia.
Qed.

(** ** The reaction normalizer *)

Lemma first_smiles_spec l s :
  first_smiles l = Some s <-> first_identified (Some l) s.
Proof.
  split.
  - induction l as [|c l IH]; simpl; [discriminate|].
    destruct (smiles c) as [[|a t]|] eqn:Hc; simpl.
    + intros H. destruct (IH H) as (before & c' & after & [= ->] & ? & ? & ?).
      exists (c :: before), c', after. repeat split; auto.
    + intros [= <-]. exists [], c, l. repeat split; auto; discriminate.
    + intros H. destruct (IH H) as (before & c' & after & [= ->] & ? & ? & ?).
      exists (c :: before), c', after. repeat split; auto.
  - intros (before & c & after & [= ->] & Hc & Hs & Hbefore).
    induction Hbefore as [|c' before [Hc'|Hc'] _ IH]; simpl.
    + rewrite Hc. destruct s; [congruence | reflexivity].
    + rewrite Hc'. exact IH.
    + rewrite Hc'. exact IH.
Qed.

Lemma select_smiles_spec candidates s :
  select_smiles candidates = Some s <-> first_identified candidates s.
Proof.
  destruct candidates as [[|c l]|]; simpl.
  - split; [discriminate|].
    intros (before & c & after & [= H] & _). destruct before; discriminate H.
  - apply (first_smiles_spec (c :: l)).
  - split; [discriminate|]. intros (? & ? & ? & [=] & _).
Qed.

Lemma select_smiles_truthy candidates :
  truthy_opt (select_smiles candidates)
  = bool_decide (is_Some (select_smiles candidates)).
Proof.
  destruct (select_smiles candidates) as [s|] eqn:H; simpl.
  - apply select_smiles_spec in H as (? & ? & ? & _ & _ & Hs & _).
    destruct s; [congruence|]. reflexivity.
  - reflexivity.
Qed.

Lemma normalize_entry_spec page0 reactions rxn :
  normalize_entry page0 reactions rxn =
    reactions ++
      (if complete (page0, rxn)
       then [record_of (length reactions) (page0, rxn)] else []).
Proof.
  unfold normalize_entry, complete, record_of. simpl.
  rewrite !select_smiles_truthy.
  destruct (select_smiles (reactants rxn)), (select_smiles (products rxn));
    simpl; rewrite ?app_nil_r; reflexivity.
Qed.

Lemma normalize_entries_spec page0 rxns reactions :
  fold_left (normalize_entry page0) rxns reactions =
    reactions ++
      imap (fun i => record_of (length reactions + i))
        (List.filter complete (map (pair page0) rxns)).
Proof.
  revert reactions. induction rxns as [|rxn rxns IH]; intros reactions; simpl.
  - rewrite app_nil_r. reflexivity.
  - rewrite IH, normalize_entry_spec.
    destruct (complete (page0, rxn)); simpl.
    + rewrite <- app_assoc, length_app, Nat.add_0_r. simpl. do 2 f_equal.
      apply imap_ext. intros i e _. simpl. f_equal. lia.
    + rewrite app_nil_r. reflexivity.
Qed.

Lemma normalize_from_spec fig_idx figure_results reactions :
  normalize_from fig_idx figure_results reactions =
    reactions ++
      imap (fun i => record_of (length reactions + i))
        (List.filter complete (entries_from fig_idx figure_results)).
Proof.
  revert fig_idx reactions.
  induction figure_results as [|fig rest IH]; intros fig_idx reactions; simpl.
  - rewrite app_nil_r. reflexivity.
  - rewrite IH. unfold normalize_figure. rewrite normalize_entries_spec.
    rewrite List.filter_app, imap_app, <- app_assoc. do 2 f_equal.
    apply imap_ext. intros i e _. simpl.
    rewrite length_app, length_imap. f_equal. lia.
Qed.

Lemma complete_spec e :
  complete e = true <->
    exists r p,
      first_identified (reactants e.2) r
      /\ first_identified (products e.2) p.
Proof.
  unfold complete. split.
  - destruct (select_smiles (reactants e.2)) as [r|] eqn:Hr; [|discriminate].
    destruct (select_smiles (products e.2)) as [p|] eqn:Hp; [|discriminate].
    intros _. exists r, p. rewrite <- !select_smiles_spec. auto.
  - intros (r & p & Hr & Hp).
    apply select_smiles_spec in Hr, Hp. rewrite Hr, Hp. reflexivity.
Qed.

(** Where an entry of the flattened list comes from. *)
Lemma entries_from_origin fig_idx figure_results e :
  e ∈ entries_from fig_idx figure_results ->
  exists i fig,
    figure_results !! i = Some fig
    /\ e.2 ∈ default [] (fig_reactions fig)
    /\ e.1 = default (Z.of_nat (fig_idx + i)) (fig_page fig).
Proof.
  revert fig_idx.
  induction figure_results as [|fig rest IH]; intros fig_idx; simpl.
  - intros H. apply elem_of_nil in H. contradiction.
  - rewrite elem_of_app. intros [H|H].
    + apply list_elem_of_fmap in H as (rxn & -> & Hrxn).
      exists 0, fig. rewrite Nat.add_0_r. auto.
    + destruct (IH _ H) as (i & fig' & Hi & Hin & Hpage).
      exists (S i), fig'. repeat split; auto.
      rewrite Hpage. do 2 f_equal. lia.
Qed.

(** C1: the normalizer keeps exactly the entries that have a first
    reactant identifier and a first product identifier, in the order of
    the model's listing, and drops the others without raising (it is a
    total function of the figure list); the accepted records are
    numbered 1, 2, 3, ... in that order; each carries those two
    identifiers and its raw entry, and its page is the page index of
    its figure plus one (the figure's own index standing in when the
    model gave none).  A figure whose first entry has both identifiers
    and whose second has a reactant only yields the single record 1. *)
Theorem normalize_reactions_complete_entries (figure_results : list Figure) :
  normalize_reactions figure_results
    = imap record_of (List.filter complete (entries_from 0 figure_results))
  /\ (forall e,
        complete e = true <->
          exists r p,
            first_identified (reactants e.2) r
            /\ first_identified (products e.2) p)
  /\ (forall k r,
        normalize_reactions figure_results !! k = Some r ->
        reaction_id r = (Z.of_nat k + 1)%Z)
  /\ (forall r,
        r ∈ normalize_reactions figure_results ->
        first_identified (reactants (raw_data r)) (reactant_smiles r)
        /\ first_identified (products (raw_data r)) (product_smiles r)
        /\ exists i fig,
             figure_results !! i = Some fig
             /\ raw_data r ∈ default [] (fig_reactions fig)
             /\ page r = (default (Z.of_nat i) (fig_page fig) + 1)%Z)
  /\ normalize_reactions [figure_two_entries]
     = [{| reaction_id := 1; page := 4;
           reactant_smiles := lit "CCO"; product_smiles := lit "CC=O";
           raw_data := entry_complete;
           reactant_image := None; product_image := None;
           images_generated := None |}].
Proof.
  assert (Hspec : normalize_reactions figure_results
            = imap record_of
                (List.filter complete (entries_from 0 figure_results))).
  { unfold normalize_reactions. rewrite normalize_from_spec. reflexivity. }
  split; [exact Hspec|]. split; [exact complete_spec|]. split; [|split].
  - intros k r. rewrite Hspec, list_lookup_imap.
    destruct (List.filter complete _ !! k) as [e|]; simpl; [|discriminate].
    intros [= <-]. reflexivity.
  - intros r. rewrite Hspec, elem_of_lookup_imap.
    intros (k & e & -> & Hk).
    apply list_elem_of_lookup_2, list_elem_of_In, filter_In in Hk
      as [Hin Hcomplete].
    apply list_elem_of_In, entries_from_origin in Hin
      as (i & fig & Hfig & Hraw & Hpage).
    unfold complete in Hcomplete. simpl.
    destruct (select_smiles (reactants e.2)) as [rs|] eqn:Hr; [|discriminate].
    destruct (select_smiles (products e.2)) as [ps|] eqn:Hp; [|discriminate].
    simpl. rewrite <- !select_smiles_spec. repeat split; auto.
    exists i, fig. rewrite Hpage. auto.
  - reflexivity.
Qed.

(** ** The image stage *)

(** One turn of the loop, whatever RDKit does: the flag says whether
    the record rendered, the picture files are recorded when it did,
    and nothing else of the record changes. *)
Lemma render_reaction_spec rd images_dir r :
  images_generated (render_reaction rd images_dir r)
    = Some (renders rd images_dir r)
  /\ reaction_id (render_reaction rd images_dir r) = reaction_id r
  /\ page (render_reaction rd images_dir r) = page r
  /\ reactant_smiles (render_reaction rd images_dir r) = reactant_smiles r
  /\ product_smiles (render_reaction rd images_dir r) = product_smiles r
  /\ raw_data (render_reaction rd images_dir r) = raw_data r
  /\ (renders rd images_dir r = true ->
      reactant_image (render_reaction rd images_dir r)
        = Some (joinpath images_dir (image_name (reaction_id r) "reactant"))
      /\ product_image (render_reaction rd images_dir r)
         = Some (joinpath images_dir (image_name (reaction_id r) "product")))
  /\ (renders rd images_dir r = false ->
      reactant_image (render_reaction rd images_dir r) = reactant_image r
      /\ product_image (render_reaction rd images_dir r) = product_image r).
Proof.
  unfold render_reaction, render_reaction_body, renders, parses, saves.
  destruct (MolFromSmiles rd (reactant_smiles r)) as [[|]|];
    destruct (MolFromSmiles rd (product_smiles r)) as [[|]|];
    simpl; try (repeat split; intros; (discriminate || reflexivity)).
  destruct (draw_and_save rd (reactant_smiles r) _) as [[]|];
    simpl; try (repeat split; intros; (discriminate || reflexivity)).
  destruct (draw_and_save rd (product_smiles r) _) as [[]|];
    simpl; repeat split; intros; (discriminate || reflexivity).
Qed.




(** ** The experimental text in the document *)

Lemma split_nonempty c s : split c s <> [].
Proof.
  destruct s as [|a s]; simpl; [discriminate|].
  destruct (char_eqb a c); [discriminate|].
  destruct (split c s); discriminate.
Qed.


(** The lines of a text followed by a separator and more text. *)
Lemma split_app_sep c s t :
  split c (s ++ c :: t) = split c s ++ split c t.
Proof.
  induction s as [|a s IH]; simpl.
  - unfold char_eqb. rewrite N.eqb_refl. reflexivity.
  - rewrite IH. destruct (char_eqb a c); [reflexivity|].
    pose proof (split_nonempty c s) as Hne.
    destruct (split c s) as [|l ls]; [congruence | reflexivity].
Qed.





(** ** The document assembler's outcomes *)

(** The paragraphs are appended up to the first text that python-docx
    refuses. *)
Lemma append_blocks_outcome dx doc blocks :
  append_blocks dx doc blocks
  = match first_refused dx blocks with
    | None => Ok (doc ++ blocks)
    | Some e => Raise e
    end.
Proof.
  revert doc. induction blocks as [|b blocks IH]; intros doc; simpl.
  - rewrite app_nil_r. reflexivity.
  - destruct b as [style text| |runs]; simpl.
    + destruct (if truthy text then add_text dx text else Ok ())
        as [[]|e]; simpl; [|reflexivity].
      rewrite IH, <- app_assoc. reflexivity.
    + rewrite IH, <- app_assoc. reflexivity.
    + rewrite IH, <- app_assoc. reflexivity.
Qed.

(** The assembler, outcome by outcome. *)
Lemma create_word_document_cases dx fs pdf_info reactions output_path lang
    template_path :
  create_word_document dx fs pdf_info reactions output_path lang
    template_path
  = if docx_available dx then
      match open_document dx fs template_path with
      | Raise e => Raise e
      | Ok opened =>
          match first_refused dx
                  (document_body dx fs pdf_info reactions lang) with
          | Some e => Raise e
          | None =>
              match save dx
                      (opened ++ document_body dx fs pdf_info reactions lang)
                      output_path with
              | Raise e => Raise e
              | Ok _ =>
                  Ok {| returned := true;
                        saved :=
                          Some (opened
                                ++ document_body dx fs pdf_info reactions
                                     lang) |}
              end
          end
      end
    else Ok {| returned := false; saved := None |}.
Proof.
  unfold create_word_document.
  destruct (docx_available dx); cbn [negb]; [|reflexivity].
  destruct (open_document dx fs template_path) as [opened|e];
    cbn [mbind exc_bind]; [|reflexivity].
  rewrite append_blocks_outcome.
  destruct (first_refused dx _) as [e|]; cbn [mbind exc_bind];
    [reflexivity|].
  destruct (save dx _ output_path) as [[]|e]; reflexivity.
Qed.

(** C8 (as amended): whenever the assembler returns, it returns failure
    exactly when python-docx is missing, and then it has saved nothing;
    it returns success only once the document, opened and filled, is
    saved.  It does return failure when python-docx is missing.  With
    python-docx it never returns failure: it returns success when the
    opening, the texts of the paragraphs and the saving all go through,
    whatever the insertion of pictures does, and it raises when one of
    the three does not; what it raises is the exception of the opening,
    of the first paragraph text that is refused, or of the saving,
    never that of a picture.  With pictures that cannot be inserted the
    document is still saved, the runs of the pictures left empty. *)
Theorem create_word_document_outcomes (dx : Docx) (fs : FileSystem)
    (pdf_info : ExtractedTextInfo) (reactions : list Reaction)
    (output_path : Path) (lang : str) (template_path : option Path) :
  (forall made,
     create_word_document dx fs pdf_info reactions output_path lang
       template_path = Ok made ->
     (returned made = false <-> docx_available dx = false)
     /\ (returned made = false -> saved made = None)
     /\ (returned made = true ->
         exists opened,
           open_document dx fs template_path = Ok opened
           /\ first_refused dx (document_body dx fs pdf_info reactions lang)
              = None
           /\ saved made
              = Some (opened ++ document_body dx fs pdf_info reactions lang)
           /\ save dx (opened ++ document_body dx fs pdf_info reactions lang)
                output_path = Ok ()))
  /\ (docx_available dx = false ->
      create_word_document dx fs pdf_info reactions output_path lang
        template_path = Ok {| returned := false; saved := None |})
  /\ (docx_available dx = true ->
      forall opened,
        open_document dx fs template_path = Ok opened ->
        first_refused dx (document_body dx fs pdf_info reactions lang)
          = None ->
        save dx (opened ++ document_body dx fs pdf_info reactions lang)
          output_path = Ok () ->
        create_word_document dx fs pdf_info reactions output_path lang
          template_path
        = Ok {| returned := true;
                saved := Some (opened
                               ++ document_body dx fs pdf_info reactions lang) |})
  /\ (forall e,
        create_word_document dx fs pdf_info reactions output_path lang
          template_path = Raise e <->
        docx_available dx = true
        /\ (open_document dx fs template_path = Raise e
            \/ exists opened,
                 open_document dx fs template_path = Ok opened
                 /\ (first_refused dx
                       (document_body dx fs pdf_info reactions lang) = Some e
                     \/ (first_refused dx
                           (document_body dx fs pdf_info reactions lang)
                         = None
                         /\ save dx
                              (opened
                               ++ document_body dx fs pdf_info reactions lang)
                              output_path = Raise e))))
  /\ (exists doc,
        create_word_document no_pictures only_files
          (info_with_text (lit "compound 12 was prepared."))
          [rendered_reaction] (file_named "paper.docx") (lit "both") None
        = Ok {| returned := true; saved := Some doc |}
        /\ Images [[]; []] ∈ doc).
Proof.
  rewrite create_word_document_cases.
  split; [|split; [|split; [|split]]].
  - intros made. destruct (docx_available dx).
    + destruct (open_document dx fs template_path) as [opened|];
        [|discriminate].
      destruct (first_refused dx _) as [e|] eqn:Hrefused; [discriminate|].
      destruct (save dx _ output_path) as [[]|] eqn:Hsave; [|discriminate].
      intros [= <-]. simpl. split; [split; discriminate|].
      split; [discriminate|]. intros _. exists opened. auto.
    + intros [= <-]. simpl. split; [split; reflexivity|].
      split; [reflexivity | discriminate].
  - intros ->. reflexivity.
  - intros -> opened Hopen Hrefused Hsave.
    rewrite Hopen, Hrefused, Hsave. reflexivity.
  - intros e. destruct (docx_available dx).
    + destruct (open_document dx fs template_path) as [opened|e'].
      * destruct (first_refused dx _) as [e'|] eqn:Hrefused.
        { split.
          - intros [= <-]. split; [reflexivity|]. right. exists opened. auto.
          - intros (_ & [Hopen|(opened' & _ & [Hr|[Hr _]])]);
              congruence. }
        destruct (save dx _ output_path) as [[]|e'] eqn:Hsave.
        { split; [discriminate|].
          intros (_ & [Hopen|(opened' & Hopen & [Hr|[_ Hs]])]);
            congruence. }
        split.
        { intros [= <-]. split; [reflexivity|]. right. exists opened. auto. }
        intros (_ & [Hopen|(opened' & Hopen & [Hr|[_ Hs]])]);
          congruence.
      * split.
        { intros [= <-]. auto. }
        intros (_ & [Hopen|(opened' & Hopen & _)]); congruence.
    + split; [discriminate|]. intros [H _]. discriminate H.
  - eexists. split; [reflexivity|]. vm_compute.
    repeat (first [apply list_elem_of_here | apply list_elem_of_further]).
Qed.

Lemma create_word_document_outcomes_witness :
  create_word_document no_docx only_files
    (info_with_text (lit "compound 12 was prepared."))
    [rendered_reaction] (file_named "paper.docx") (lit "both") None
  = Ok {| returned := false; saved := None |}.
Proof.
  apply (proj1 (proj2 (create_word_document_outcomes no_docx only_files
                         (info_with_text (lit "compound 12 was prepared."))
                         [rendered_reaction] (file_named "paper.docx")
                         (lit "both") None))).
  reflexivity.
Defined.

(** C8, as it was stated, fails where python-docx is installed and a
    step of the assembly raises: the assembler then neither returns
    failure nor returns success after saving.  An experimental text
    with a form feed, as the text of a PDF page may hold, is refused
    when its paragraph is added; and a document that cannot be saved
    ends the call with the exception of [doc.save]. *)
Lemma create_word_document_may_raise :
  docx_available refuses_controls = true
  /\ create_word_document refuses_controls only_files
       (info_with_text
          (lit "Compound 12 was prepared." ++ [12%N] ++ lit "Yield 85%."))
       [] (file_named "paper.docx") (lit "both") None
     = Raise xml_refusal
  /\ docx_available saves_but_first = true
  /\ create_word_document saves_but_first only_files
       (info_with_text (lit "compound 12 was prepared.")) []
       (joinpath (file_named "first") (lit "first.docx")) (lit "both") None
     = Raise (lit "[Errno 28] No space left on device").
Proof.
  split; [reflexivity|]. split; [vm_compute; reflexivity|].
  split; [reflexivity|]. vm_compute. reflexivity.
Qed.

(** ** One file *)

Section PerFileFacts.
Variable W : World.
Variable args : Args.
Variable config : Config.

Lemma append_error_nonempty e r : errors (append_error e r) <> [].
Proof. simpl. destruct (errors r); discriminate. Qed.

(** The fifth stage leaves [success] alone and removes no error. *)
Lemma stage_raw_data_keeps pdf_path dir r :
  success (stage_raw_data W config pdf_path dir r) = success r
  /\ (errors r <> [] ->
      errors (stage_raw_data W config pdf_path dir r) <> []).
Proof.
  unfold stage_raw_data. destruct (save_raw_data config); [|auto].
  destruct (dump_json (fs W) _); simpl; [auto|].
  split; [reflexivity|]. intros _. destruct (errors r); discriminate.
Qed.

(** From the fourth stage on: a result that is not a success carries an
    error. *)
Lemma stage_document_failure pdf_path dir info reactions r :
  success (stage_document W args config pdf_path dir info reactions r) = false ->
  errors (stage_document W args config pdf_path dir info reactions r) <> [].
Proof.
  unfold stage_document.
  destruct (create_word_document _ _ _ _ _ _ _) as [made|e];
    [|intros _; apply append_error_nonempty].
  match goal with
  | |- context [stage_raw_data W config pdf_path dir ?r'] =>
      destruct (stage_raw_data_keeps pdf_path dir r') as [Hs He];
      rewrite Hs; intros Hfail; apply He; revert Hfail
  end.
  destruct (returned made).
  - destruct (exists_path (fs W) _); simpl; discriminate.
  - intros _. apply append_error_nonempty.
Qed.

Lemma stage_images_failure pdf_path dir info reactions r :
  success (stage_images W args config pdf_path dir info reactions r) = false ->
  errors (stage_images W args config pdf_path dir info reactions r) <> [].
Proof.
  unfold stage_images.
  destruct (truthy reactions && negb (no_images args));
    [|apply stage_document_failure].
  destruct (generate_reaction_images _ _ _ _) as [reactions'|e];
    [apply stage_document_failure | intros _; apply append_error_nonempty].
Qed.

(** The statements of the [try], together with its handler, always
    leave a result; it names the file, and it is a success or carries
    an error. *)
Lemma process_stages_result pdf_path dir :
  pdf_file (process_stages W args config pdf_path dir
              (new_result pdf_path dir)) = pdf_path
  /\ (success (process_stages W args config pdf_path dir
                 (new_result pdf_path dir)) = false ->
      errors (process_stages W args config pdf_path dir
                (new_result pdf_path dir)) <> []).
Proof.
  split.
  - unfold process_stages, stage_images, stage_document, stage_raw_data.
    repeat (match goal with
            | |- context [match ?x with _ => _ end] => destruct x
            end; simpl); reflexivity.
  - unfold process_stages.
    destruct (extract_text_info _ _ _ _ _ _) as [info|e];
      [apply stage_images_failure | intros _; apply append_error_nonempty].
Qed.

(** Making the directory of the file is not inside the [try]. *)
Lemma process_pdf_outcome pdf_path out_dir :
  process_pdf W args config pdf_path out_dir =
    match mkdir (fs W) (joinpath out_dir (stem pdf_path)) with
    | Ok _ =>
        Ok (process_stages W args config pdf_path
              (joinpath out_dir (stem pdf_path))
              (new_result pdf_path (joinpath out_dir (stem pdf_path))))
    | Raise e => Raise e
    end.
Proof.
  unfold process_pdf. destruct (mkdir (fs W) _); reflexivity.
Qed.

(** The loop over the files, as long as their directories can be made. *)
Lemma process_all_results pdf_files out_dir results :
  Forall (fun f => mkdir (fs W) (joinpath out_dir (stem f)) = Ok ())
    pdf_files ->
  process_all W args config pdf_files out_dir results
  = Ok (results ++ map (result_of W args config out_dir) pdf_files).
Proof.
  intros Hdirs. revert results.
  induction Hdirs as [|f pdf_files Hf _ IH]; intros results; simpl.
  - rewrite app_nil_r. reflexivity.
  - rewrite process_pdf_outcome, Hf. simpl.
    rewrite IH, <- app_assoc. reflexivity.
Qed.

(** The loop stops at the first file whose directory cannot be made,
    and the results gathered so far are lost with it. *)
Lemma process_all_escapes before f after out_dir results e :
  Forall (fun f => mkdir (fs W) (joinpath out_dir (stem f)) = Ok ()) before ->
  mkdir (fs W) (joinpath out_dir (stem f)) = Raise e ->
  process_all W args config (before ++ f :: after) out_dir results = Raise e.
Proof.
  intros Hdirs Hf. revert results.
  induction Hdirs as [|f' before Hf' _ IH]; intros results; simpl.
  - rewrite process_pdf_outcome, Hf. reflexivity.
  - rewrite process_pdf_outcome, Hf'. simpl. apply IH.
Qed.

Lemma success_count_pos results :
  (0 <? success_count results)%Z = true
  <-> exists r, r ∈ results /\ success r = true.
Proof.
  unfold success_count. rewrite Z.ltb_lt. split.
  - intros Hpos.
    destruct (List.filter success results) as [|r rest] eqn:Hfilter;
      [simpl in Hpos; lia|].
    assert (Hin : In r (List.filter success results))
      by (rewrite Hfilter; left; reflexivity).
    apply filter_In in Hin as [Hin Hr].
    exists r. split; [apply list_elem_of_In, Hin | exact Hr].
  - intros (r & Hin & Hr).
    assert (Hin' : In r (List.filter success results))
      by (apply filter_In; split; [apply list_elem_of_In, Hin | exact Hr]).
    destruct (List.filter success results); [contradiction|simpl; lia].
Qed.

End PerFileFacts.

(** ** The batch *)




(** C3, where the code departs from it: the output directory already
    holds a regular file with the name of the directory that the first
    of two files needs.  Line 527 raises; it stands before the [try]
    of line 536, so the exception leaves [process_pdf], and nothing in
    the loop of [main] catches it: the run ends without a result for
    either file, though the second file, on its own, is a success. *)
Theorem process_pdf_directory_clash_escapes :
  process_pdf (two_file_world true) batch_args no_config
    (file_named "first.pdf") (output batch_args)
  = Raise (lit "[Errno 17] File exists: 'results/first'")
  /\ (exists r,
        process_pdf (two_file_world true) batch_args no_config
          (file_named "second.pdf") (output batch_args) = Ok r
        /\ success r = true)
  /\ find_pdf_files (fs (two_file_world true)) (input batch_args)
       (include_si batch_args)
     = [file_named "first.pdf"; file_named "second.pdf"]
  /\ main (two_file_world true) batch_args no_config
     = Raise (lit "[Errno 17] File exists: 'results/first'").
Proof.
  split; [reflexivity|]. split; [|split].
  - eexists. split; [vm_compute; reflexivity | reflexivity].
  - reflexivity.
  - unfold main.
    change (find_pdf_files _ _ _)
      with [file_named "first.pdf"; file_named "second.pdf"].
    cbn [truthy negb].
    pose proof (process_all_escapes (two_file_world true) batch_args
                  no_config [] (file_named "first.pdf")
                  [file_named "second.pdf"] (output batch_args) []
                  (lit "[Errno 17] File exists: 'results/first'")
                  (List.Forall_nil _) eq_refl) as Hloop.
    cbn [app] in Hloop. rewrite Hloop. reflexivity.
Qed.

(** ** What does hold of one file and of two *)

(** Whatever the collaborators do inside the stages, a file whose
    directory can be made gets a result: it names the file, and it is a
    success or carries an error. *)
Theorem process_pdf_isolates_stages (W : World) (args : Args)
    (config : Config) (pdf_path out_dir : Path) :
  mkdir (fs W) (joinpath out_dir (stem pdf_path)) = Ok () ->
  exists r,
    process_pdf W args config pdf_path out_dir = Ok r
    /\ pdf_file r = pdf_path
    /\ (success r = false -> errors r <> []).
Proof.
  intros Hdir. rewrite process_pdf_outcome, Hdir.
  eexists. split; [reflexivity|]. apply process_stages_result.
Qed.

Lemma process_pdf_isolates_stages_witness :
  exists r,
    process_pdf (two_file_world false) batch_args no_config
      (file_named "first.pdf") (output batch_args) = Ok r
    /\ pdf_file r = file_named "first.pdf"
    /\ (success r = false -> errors r <> []).
Proof.
  apply (process_pdf_isolates_stages (two_file_world false) batch_args
           no_config (file_named "first.pdf") (output batch_args)).
  reflexivity.
Defined.

(** Two files, the document of the first of which cannot be saved:
    two results, the first a failure with the message of the
    exception, the second a success, and status 0. *)
Theorem main_two_files_one_failure :
  exists first second,
    main (two_file_world false) batch_args no_config
    = Ok {| status := 0;
            results := [first; second];
            report := Some [first; second] |}
    /\ success first = false
    /\ errors first = [lit "[Errno 28] No space left on device"]
    /\ success second = true
    /\ errors second = [].
Proof. eexists _, _. split; [vm_compute; reflexivity|]. repeat split. Qed.

(** An exception of the recognition model is not a failure of the
    file: the reaction list is empty and the stages go on. *)
Theorem recognition_failure_is_swallowed (oc : OpenChemIE) (pdf_path : Path)
    (pages : Z) (e : str) :
  extract_reactions_from_figures_in_pdf oc pdf_path pages = Raise e ->
  extract_reactions_with_openchemie oc pdf_path pages = [].
Proof.
  intros H. unfold extract_reactions_with_openchemie. rewrite H. reflexivity.
Qed.

Lemma recognition_failure_is_swallowed_witness :
  extract_reactions_with_openchemie no_model (file_named "paper.pdf") 5 = [].
Proof.
  apply (recognition_failure_is_swallowed no_model (file_named "paper.pdf") 5
           (lit "No module named 'torch'")).
  reflexivity.
Defined.

(** * Further properties *)

(** ** More on finding the input files *)

Lemma filter_sublist {A} (p : A -> bool) (l : list A) :
  sublist (List.filter p l) l.
Proof.
  induction l as [|x l IH]; simpl; [constructor|].
  destruct (p x); [apply sublist_skip | apply sublist_cons]; exact IH.
Qed.

(** The name of a path is its stem followed by its suffix. *)
Lemma stem_suffix p : stem p ++ suffix p = name p.
Proof.
  unfold stem, suffix. destruct (rfind chr_dot (name p)) as [i|].
  - destruct ((0 <? i) && (S i <? length (name p))).
    + apply take_drop.
    + apply app_nil_r.
  - apply app_nil_r.
Qed.

Lemma suffix_nonempty_stem p : suffix p <> [] -> stem p <> [].
Proof.
  unfold stem, suffix. destruct (rfind chr_dot (name p)) as [i|]; [|congruence].
  destruct ((0 <? i) && (S i <? length (name p))) eqn:Hi; [|congruence].
  intros _. apply andb_true_iff in Hi as [H0 Hlen].
  apply Nat.ltb_lt in H0. apply Nat.ltb_lt in Hlen.
  intros Htake. apply (f_equal length) in Htake.
  rewrite length_take in Htake. simpl in Htake. lia.
Qed.

(** A single file is the whole batch or no batch at all, and which of
    the two depends on its name alone: it is the batch exactly when the
    name is something not empty followed by [.pdf] in any case.  The
    option about supplementary files plays no part, and a path that is
    neither a file nor a directory gives no batch. *)
Theorem find_pdf_files_single_file (fs : FileSystem) (input_path : Path)
    (si : bool) :
  (is_file fs input_path = true ->
   (find_pdf_files fs input_path si = [input_path] <->
      exists pre ext,
        name input_path = pre ++ ext /\ pre <> []
        /\ lower ext = lit ".pdf")
   /\ (find_pdf_files fs input_path si = [input_path]
       \/ find_pdf_files fs input_path si = [])
   /\ find_pdf_files fs input_path si
      = find_pdf_files fs input_path (negb si))
  /\ (is_file fs input_path = false -> is_dir fs input_path = false ->
      find_pdf_files fs input_path si = []).
Proof.
  unfold find_pdf_files. split.
  - intros ->. split; [|split; [|reflexivity]].
    + split.
      * destruct (str_eqb (lower (suffix input_path)) (lit ".pdf")) eqn:Hs;
          [|discriminate].
        intros _. apply str_eqb_eq in Hs.
        exists (stem input_path), (suffix input_path).
        split; [symmetry; apply stem_suffix|]. split; [|exact Hs].
        apply suffix_nonempty_stem. intros Hnil.
        rewrite Hnil in Hs. discriminate Hs.
      * intros (pre & ext & Hname & Hpre & Hext).
        rewrite (suffix_of_extension _ pre ext Hname Hpre Hext), Hext.
        rewrite str_eqb_refl. reflexivity.
    + destruct (str_eqb _ _); auto.
  - intros -> ->. reflexivity.
Qed.

Lemma find_pdf_files_single_file_witness :
  find_pdf_files only_files (file_named "notes.txt") true = [].
Proof.
  destruct (proj1 (find_pdf_files_single_file only_files
                     (file_named "notes.txt") true) eq_refl)
    as (_ & [H|H] & _); [discriminate H | exact H].
Defined.

(** Under a directory the batch is picked out of what the glob yields,
    in the glob's order; with the option on it is all of it; with the
    option off no file of it has [SI] in its name, and nothing is in it
    that the option on would leave out. *)
Theorem find_pdf_files_directory (fs : FileSystem) (input_path : Path) :
  is_file fs input_path = false -> is_dir fs input_path = true ->
  find_pdf_files fs input_path true = glob_pdf fs input_path
  /\ sublist (find_pdf_files fs input_path false) (glob_pdf fs input_path)
  /\ Forall (fun f => contains (name f) (lit "SI") = false)
       (find_pdf_files fs input_path false)
  /\ (forall f,
        f ∈ glob_pdf fs input_path ->
        contains (name f) (lit "SI") = false ->
        f ∈ find_pdf_files fs input_path false).
Proof.
  intros Hfile Hdir. unfold find_pdf_files. rewrite Hfile, Hdir.
  rewrite !fold_skip_filter. simpl. split; [|split; [|split]].
  - induction (glob_pdf fs input_path) as [|f l IH]; simpl; congruence.
  - apply filter_sublist.
  - apply Forall_forall. intros f Hin.
    apply list_elem_of_In, filter_In in Hin as [_ Hf].
    apply negb_true_iff in Hf. exact Hf.
  - intros f Hin Hsi. apply list_elem_of_In, filter_In.
    split; [apply list_elem_of_In, Hin|]. rewrite Hsi. reflexivity.
Qed.

Lemma find_pdf_files_directory_witness :
  find_pdf_files (directory_of [file_named "a.pdf"; file_named "a_SI.pdf"])
    (file_named "pdfs") true
  = [file_named "a.pdf"; file_named "a_SI.pdf"].
Proof.
  apply (find_pdf_files_directory
           (directory_of [file_named "a.pdf"; file_named "a_SI.pdf"])
           (file_named "pdfs") eq_refl eq_refl).
Defined.

(** ** More on the text-mining extractor *)

(** The extractor reads no page beyond the budget: in one installation,
    two documents with as many pages that agree on the pages within the
    budget give the same record, whatever their other pages hold or
    raise. *)
Theorem extract_text_info_within_budget (imp : Exc unit)
    (pp pp' : PdfPlumber) (re : Regex)
    (iter : list str -> list str) (pdf_path : Path) (max_pages : Z)
    (pages pages' : list (Exc (option str))) :
  pdf_open pp pdf_path = Ok pages ->
  pdf_open pp' pdf_path = Ok pages' ->
  length pages = length pages' ->
  pages_read pages max_pages = pages_read pages' max_pages ->
  extract_text_info imp pp re iter pdf_path max_pages
  = extract_text_info imp pp' re iter pdf_path max_pages.
Proof.
  intros Hopen Hopen' Hlen Hread.
  unfold extract_text_info. destruct imp as [[]|e]; cbn [mbind exc_bind];
    [|reflexivity].
  f_equal. unfold extract_text_try, extract_text_body.
  rewrite Hopen, Hopen'. cbn [mbind exc_bind].
  unfold pages_read in Hread. rewrite <- Hread, <- Hlen. reflexivity.
Qed.

Lemma extract_text_info_within_budget_witness :
  extract_text_info (Ok ())
    {| pdf_open := fun _ =>
         Ok [Ok (Some (lit "Compounds 12, A1 and 3."));
             Raise (lit "broken page")] |}
    finds_three (fun s => s) (file_named "paper.pdf") 1
  = extract_text_info (Ok ())
      {| pdf_open := fun _ =>
           Ok [Ok (Some (lit "Compounds 12, A1 and 3.")); Ok None] |}
      finds_three (fun s => s) (file_named "paper.pdf") 1.
Proof.
  apply (extract_text_info_within_budget (Ok ()) _ _ finds_three (fun s => s)
           (file_named "paper.pdf") 1
           [Ok (Some (lit "Compounds 12, A1 and 3."));
            Raise (lit "broken page")]
           [Ok (Some (lit "Compounds 12, A1 and 3.")); Ok None]);
    reflexivity.
Defined.

(** *** The caps *)

Lemma dict_set_keys k v d :
  NoDup (map fst d) -> NoDup (map fst (dict_set k v d)).
Proof.
  intros Hd. unfold dict_set.
  destruct (existsb (fun kv => str_eqb (fst kv) k) d) eqn:Hk.
  - replace (map fst (map _ d)) with (map fst d); [exact Hd|].
    clear Hd Hk. induction d as [|kv d IH]; simpl; [reflexivity|].
    rewrite <- IH. f_equal.
    destruct (str_eqb (fst kv) k) eqn:H; [|reflexivity].
    apply str_eqb_eq in H. simpl. congruence.
  - rewrite map_app. simpl. apply NoDup_app. split; [exact Hd|].
    split; [|apply NoDup_singleton].
    intros x Hx Hin. apply list_elem_of_singleton in Hin as ->.
    apply list_elem_of_fmap in Hx as (kv & Hkey & Hkv).
    assert (existsb (fun kv => str_eqb (fst kv) k) d = true).
    { apply existsb_exists. exists kv.
      split; [apply list_elem_of_In, Hkv | apply str_eqb_eq; auto]. }
    congruence.
Qed.

Lemma dict_set_length k v d : length (dict_set k v d) <= S (length d).
Proof.
  unfold dict_set. destruct (existsb _ d).
  - rewrite length_map. lia.
  - rewrite length_app. simpl. lia.
Qed.

Lemma dict_set_values (P : str -> Prop) k v d :
  P v -> Forall (fun kv => P kv.2) d ->
  Forall (fun kv => P kv.2) (dict_set k v d).
Proof.
  intros Hv Hd. unfold dict_set. destruct (existsb _ d).
  - apply Forall_fmap. eapply Forall_impl; [exact Hd|].
    intros kv Hkv. simpl. destruct (str_eqb (fst kv) k); assumption.
  - apply Forall_app. split; [exact Hd|]. repeat constructor. exact Hv.
Qed.

Lemma describe_compounds_caps re iter found all_text :
  length (describe_compounds re iter found all_text) <= 5
  /\ NoDup (map fst (describe_compounds re iter found all_text))
  /\ Forall (fun kv => length kv.2 <= 200)
       (describe_compounds re iter found all_text).
Proof.
  unfold describe_compounds.
  destruct (truthy found);
    [|simpl; repeat split; [lia | constructor | constructor]].
  assert (Hgen : forall l d,
            length (fold_left
                      (fun compound_desc compound =>
                         match search_description re compound all_text with
                         | Some group0 =>
                             dict_set compound (take 200 group0) compound_desc
                         | None => compound_desc
                         end) l d) <= length d + length l
            /\ (NoDup (map fst d) ->
                NoDup (map fst (fold_left
                      (fun compound_desc compound =>
                         match search_description re compound all_text with
                         | Some group0 =>
                             dict_set compound (take 200 group0) compound_desc
                         | None => compound_desc
                         end) l d)))
            /\ (Forall (fun kv => length kv.2 <= 200) d ->
                Forall (fun kv => length kv.2 <= 200) (fold_left
                      (fun compound_desc compound =>
                         match search_description re compound all_text with
                         | Some group0 =>
                             dict_set compound (take 200 group0) compound_desc
                         | None => compound_desc
                         end) l d))).
  { induction l as [|c l IH]; intros d; simpl.
    - repeat split; auto; lia.
    - destruct (search_description re c all_text) as [g|].
      + destruct (IH (dict_set c (take 200 g) d)) as (Hlen & Hkeys & Hvals).
        pose proof (dict_set_length c (take 200 g) d).
        split; [lia|]. split.
        * intros Hd. apply Hkeys, dict_set_keys, Hd.
        * intros Hd. apply Hvals.
          apply (dict_set_values (fun v => length v <= 200)); [|exact Hd].
          rewrite length_take. lia.
      + destruct (IH d) as (Hlen & Hkeys & Hvals).
        split; [lia|]. split; assumption. }
  destruct (Hgen (take 5 (iter found)) []) as (Hlen & Hkeys & Hvals).
  split; [|split].
  - simpl in Hlen. rewrite length_take in Hlen. lia.
  - apply Hkeys. constructor.
  - apply Hvals. constructor.
Qed.

(** Every record the extractor returns, the default one included,
    holds at most ten physical-property snippets and at most five
    compound descriptions, each of at most 200 characters and each
    under an identifier of its own. *)
Theorem extract_text_info_caps (imp : Exc unit) (pp : PdfPlumber)
    (re : Regex) (iter : list str -> list str) (pdf_path : Path)
    (max_pages : Z) (info : ExtractedTextInfo) :
  extract_text_info imp pp re iter pdf_path max_pages = Ok info ->
  length (physical_props info) <= 10
  /\ length (compound_descriptions info) <= 5
  /\ NoDup (map fst (compound_descriptions info))
  /\ Forall (fun kv => length kv.2 <= 200) (compound_descriptions info).
Proof.
  intros Hret. apply extract_text_info_returns in Hret as [_ ->].
  unfold extract_text_try, extract_text_body.
  destruct (pdf_open pp pdf_path) as [pages|e]; cbn [mbind exc_bind];
    [|simpl; repeat split; [lia | lia | constructor | constructor]].
  destruct (read_pages _ _) as [all_text|e]; cbn [mbind exc_bind];
    [|simpl; repeat split; [lia | lia | constructor | constructor]].
  cbn [physical_props compound_descriptions].
  split; [rewrite length_take; lia|].
  apply describe_compounds_caps.
Qed.

Lemma extract_text_info_caps_witness :
  length
    (physical_props
       (extract_text_try one_page finds_three (fun s => s)
          (file_named "paper.pdf") 5)) <= 10.
Proof.
  apply (extract_text_info_caps (Ok ()) one_page finds_three (fun s => s)
           (file_named "paper.pdf") 5 _ eq_refl).
Defined.

(** *** The identifiers kept *)

Lemma existsb_str_eqb x s : existsb (str_eqb x) s = true <-> x ∈ s.
Proof.
  rewrite existsb_exists. split.
  - intros (y & Hin & Hy). apply str_eqb_eq in Hy as ->.
    apply list_elem_of_In, Hin.
  - intros Hin. exists x. split; [apply list_elem_of_In, Hin|].
    apply str_eqb_refl.
Qed.

Lemma set_add_kept x s :
  kept_identifier x ->
  NoDup s /\ Forall kept_identifier s ->
  NoDup (set_add x s) /\ Forall kept_identifier (set_add x s).
Proof.
  intros Hx [Hs Hk]. unfold set_add.
  destruct (existsb (str_eqb x) s) eqn:Hin; [auto|].
  split.
  - apply NoDup_app. split; [exact Hs|]. split; [|apply NoDup_singleton].
    intros y Hy Hy'. apply list_elem_of_singleton in Hy'. subst y.
    apply existsb_str_eqb in Hy. congruence.
  - apply Forall_app. split; [exact Hk|].
    constructor; [exact Hx | constructor].
Qed.

Lemma add_matches_kept compounds matches :
  NoDup compounds /\ Forall kept_identifier compounds ->
  NoDup (add_matches compounds matches)
  /\ Forall kept_identifier (add_matches compounds matches).
Proof.
  unfold add_matches. revert compounds.
  induction matches as [|m matches IH]; intros compounds H; simpl; [exact H|].
  apply IH. destruct ((1 <? length m) || isdigit m) eqn:Hm; [|exact H].
  apply set_add_kept; [|exact H].
  apply orb_true_iff in Hm as [Hm|Hm]; [left; apply Nat.ltb_lt, Hm | right; exact Hm].
Qed.

Lemma find_compounds_kept re all_text :
  NoDup (find_compounds re all_text)
  /\ Forall kept_identifier (find_compounds re all_text).
Proof.
  unfold find_compounds.
  assert (Hgen : forall ks acc,
            NoDup acc /\ Forall kept_identifier acc ->
            NoDup (fold_left
                     (fun acc k =>
                        add_matches acc (findall_compound re k all_text))
                     ks acc)
            /\ Forall kept_identifier
                 (fold_left
                    (fun acc k =>
                       add_matches acc (findall_compound re k all_text))
                    ks acc)).
  { induction ks as [|k ks IH]; intros acc H; simpl; [exact H|].
    apply IH, add_matches_kept, H. }
  apply Hgen. split; constructor.
Qed.

(** When a set yields each of its elements once, the compounds list
    of every record the extractor returns has no identifier twice, and
    each identifier in it has more than one character or is made of
    digits, in the sense of [str.isdigit]: of any script of Unicode. *)
Theorem extract_text_info_compounds_kept (imp : Exc unit) (pp : PdfPlumber)
    (re : Regex) (iter : list str -> list str) (pdf_path : Path)
    (max_pages : Z) (info : ExtractedTextInfo) :
  (forall s, iter s ≡ₚ s) ->
  extract_text_info imp pp re iter pdf_path max_pages = Ok info ->
  NoDup (compounds info) /\ Forall kept_identifier (compounds info).
Proof.
  intros Hiter Hret. apply extract_text_info_returns in Hret as [_ ->].
  unfold extract_text_try, extract_text_body.
  destruct (pdf_open pp pdf_path) as [pages|e]; cbn [mbind exc_bind];
    [|simpl; split; constructor].
  destruct (read_pages _ _) as [all_text|e]; cbn [mbind exc_bind];
    [|simpl; split; constructor].
  cbn [compounds].
  destruct (find_compounds_kept re all_text) as [Hnodup Hkept].
  assert (Hperm : sorted compound_key (iter (find_compounds re all_text))
                  ≡ₚ find_compounds re all_text)
    by (rewrite sorted_perm; apply Hiter).
  split; [rewrite Hperm; exact Hnodup | rewrite Hperm; exact Hkept].
Qed.

Lemma extract_text_info_compounds_kept_witness :
  NoDup
    (compounds
       (extract_text_try one_page finds_three (fun s => s)
          (file_named "paper.pdf") 5)).
Proof.
  apply (extract_text_info_compounds_kept (Ok ()) one_page finds_three
           (fun s => s) (file_named "paper.pdf") 5 _).
  - intros s. reflexivity.
  - reflexivity.
Defined.

(** *** The experimental text *)

Lemma split_no_sep c s : c ∉ s -> split c s = [s].
Proof.
  induction s as [|a s IH]; simpl; [reflexivity|].
  intros Hc. rewrite not_elem_of_cons in Hc. destruct Hc as [Hca Hcs].
  rewrite (char_eqb_neq a c) by congruence. rewrite (IH Hcs). reflexivity.
Qed.

Lemma split_lines_no_sep c s : Forall (fun l => c ∉ l) (split c s).
Proof.
  induction s as [|a s IH]; simpl.
  - repeat constructor. apply not_elem_of_nil.
  - destruct (char_eqb a c) eqn:Hac.
    + constructor; [apply not_elem_of_nil | exact IH].
    + destruct (split c s) as [|l ls]; [repeat constructor|].
      * intros Hin. apply list_elem_of_singleton in Hin. subst a.
        unfold char_eqb in Hac. rewrite N.eqb_refl in Hac. discriminate.
      * inversion IH as [|? ? Hl Hls]; subst. constructor; [|exact Hls].
        intros Hin. apply elem_of_cons in Hin as [->|Hin]; [|auto].
        unfold char_eqb in Hac. rewrite N.eqb_refl in Hac. discriminate.
Qed.

Lemma lstrip_subset x s : x ∈ lstrip s -> x ∈ s.
Proof.
  induction s as [|a s IH]; simpl; [auto|].
  destruct (isspace_char a); [|auto].
  intros H. apply list_elem_of_further, IH, H.
Qed.

Lemma elem_of_rev {A} (x : A) l : x ∈ rev l <-> x ∈ l.
Proof. rewrite !list_elem_of_In. symmetry. apply in_rev. Qed.

Lemma strip_subset x s : x ∈ strip s -> x ∈ s.
Proof.
  unfold strip, rstrip. intros H.
  apply (proj1 (elem_of_rev _ _)), lstrip_subset in H.
  apply (proj1 (elem_of_rev _ _)), lstrip_subset in H. exact H.
Qed.

(** Lines without a separator, joined by it and split again, are the
    same lines. *)
Lemma split_join c lines :
  lines <> [] -> Forall (fun l => c ∉ l) lines ->
  split c (join [c] lines) = lines.
Proof.
  intros Hne Hlines. induction Hlines as [|l lines Hl Hrest IH];
    [congruence|].
  destruct lines as [|l' lines].
  - simpl. apply split_no_sep, Hl.
  - change (join [c] (l :: l' :: lines))
      with (l ++ c :: join [c] (l' :: lines)).
    rewrite split_app_sep, (split_no_sep c l Hl), IH by discriminate.
    reflexivity.
Qed.

(** The lines of the keyword fallback are the first fifty lines of the
    text that hold a keyword, each stripped. *)
Lemma fallback_experimental_lines re all_text :
  split chr_newline (fallback_experimental re all_text)
  = match map strip
            (List.filter (search_keyword re) (split chr_newline all_text))
    with
    | [] => [[]]
    | synth_lines => take 50 synth_lines
    end.
Proof.
  unfold fallback_experimental.
  assert (Hlines : Forall (fun l => chr_newline ∉ l)
            (map strip
               (List.filter (search_keyword re)
                  (split chr_newline all_text)))).
  { apply Forall_fmap, Forall_forall. intros l Hin. simpl.
    apply list_elem_of_In, filter_In in Hin as [Hin _].
    pose proof (split_lines_no_sep chr_newline all_text) as Hsplit.
    rewrite Forall_forall in Hsplit.
    intros Hnl. apply strip_subset in Hnl.
    exact (Hsplit l (proj2 (list_elem_of_In _ _) Hin) Hnl). }
  destruct (map strip _) as [|l ls]; [reflexivity|].
  cbn [truthy]. apply split_join; [discriminate|].
  apply Forall_take, Hlines.
Qed.

(** The experimental text of a document that is read without an
    exception is decided by the first heading pattern that matches, in
    the order of the source: its group, stripped, when that is not
    empty; the keyword fallback otherwise, the patterns after it never
    being tried.  With no heading matched it is the keyword fallback,
    which never has more than fifty lines. *)
Theorem extract_text_info_experimental (imp : Exc unit) (pp : PdfPlumber)
    (re : Regex) (iter : list str -> list str) (pdf_path : Path)
    (max_pages : Z) (pages : list (Exc (option str)))
    (info : ExtractedTextInfo) :
  extract_text_info imp pp re iter pdf_path max_pages = Ok info ->
  pdf_open pp pdf_path = Ok pages ->
  first_raise (pages_read pages max_pages) = None ->
  (forall k g,
     k < 3 ->
     (forall j, j < k ->
        search_experimental re j (corpus (pages_read pages max_pages))
        = None) ->
     search_experimental re k (corpus (pages_read pages max_pages))
     = Some g ->
     experimental_text info
     = if truthy (strip g) then strip g
       else fallback_experimental re (corpus (pages_read pages max_pages)))
  /\ ((forall k, k < 3 ->
         search_experimental re k (corpus (pages_read pages max_pages))
         = None) ->
      experimental_text info
      = fallback_experimental re (corpus (pages_read pages max_pages)))
  /\ (forall text,
        length (split chr_newline (fallback_experimental re text)) <= 50).
Proof.
  intros Hret Hopen Hread.
  apply extract_text_info_returns in Hret as [_ ->].
  rewrite (extract_text_try_of_corpus pp re iter pdf_path max_pages pages
             Hopen Hread).
  cbn [experimental_text].
  set (text := corpus (pages_read pages max_pages)).
  split; [|split].
  - intros k g Hk Hbefore Hmatch.
    assert (Hfirst : first_experimental re (seq 0 3) text = strip g).
    { destruct k as [|[|[|k]]]; [| | |lia]; simpl.
      - rewrite Hmatch. reflexivity.
      - rewrite (Hbefore 0) by lia. rewrite Hmatch. reflexivity.
      - rewrite (Hbefore 0), (Hbefore 1) by lia. rewrite Hmatch.
        reflexivity. }
    rewrite Hfirst. reflexivity.
  - intros Hnone. simpl.
    rewrite (Hnone 0), (Hnone 1), (Hnone 2) by lia. reflexivity.
  - intros t. rewrite fallback_experimental_lines.
    destruct (map strip _) as [|l ls]; [simpl; lia|].
    rewrite length_take. lia.
Qed.

Lemma extract_text_info_experimental_witness :
  experimental_text
    (extract_text_try one_page finds_synthesis (fun s => s)
       (file_named "paper.pdf") 5)
  = lit "Compound 12 was prepared.".
Proof.
  rewrite (proj1 (extract_text_info_experimental (Ok ()) one_page
                    finds_synthesis
                    (fun s => s) (file_named "paper.pdf") 5
                    [Ok (Some (lit "Compounds 12, A1 and 3."))] _
                    eq_refl eq_refl eq_refl)
             1 (lit "  Compound 12 was prepared. ")).
  - reflexivity.
  - lia.
  - intros j Hj. destruct j; [reflexivity | lia].
  - reflexivity.
Defined.

(** ** More on the reaction normalizer *)

Lemma reaction_ids_of_records n (l : list (Z * RawReaction)) :
  map reaction_id (imap (fun i => record_of (n + i)) l)
  = map (fun k => (Z.of_nat k + 1)%Z) (seq n (length l)).
Proof.
  revert n. induction l as [|e l IH]; intros n; simpl; [reflexivity|].
  rewrite Nat.add_0_r. f_equal.
  rewrite <- IH. f_equal. apply imap_ext. intros i x _. simpl.
  f_equal. lia.
Qed.

Lemma record_of_fresh k e : complete e = true -> fresh_record (record_of k e).
Proof.
  unfold complete, fresh_record, record_of. simpl.
  destruct (select_smiles (reactants e.2)) as [r|] eqn:Hr; [|discriminate].
  destruct (select_smiles (products e.2)) as [p|] eqn:Hp; [|discriminate].
  intros _. simpl.
  apply select_smiles_spec in Hr as (? & ? & ? & _ & _ & Hr & _).
  apply select_smiles_spec in Hp as (? & ? & ? & _ & _ & Hp & _).
  auto.
Qed.

(** Whatever the recognition model returns or raises, the reactions
    handed on are numbered 1, 2, 3, ... without gap or repetition, each
    has a reactant and a product identifier that are not empty and no
    image yet, and there are no more of them than raw entries. *)
Theorem extract_reactions_numbering (oc : OpenChemIE) (pdf_path : Path)
    (pages : Z) :
  map reaction_id (extract_reactions_with_openchemie oc pdf_path pages)
  = map (fun k => (Z.of_nat k + 1)%Z)
      (seq 0 (length (extract_reactions_with_openchemie oc pdf_path pages)))
  /\ NoDup
       (map reaction_id (extract_reactions_with_openchemie oc pdf_path pages))
  /\ Forall fresh_record
       (extract_reactions_with_openchemie oc pdf_path pages)
  /\ (forall figure_results,
        extract_reactions_from_figures_in_pdf oc pdf_path pages
        = Ok figure_results ->
        length (extract_reactions_with_openchemie oc pdf_path pages)
        <= length (entries_from 0 figure_results)).
Proof.
  assert (Hids :
    map reaction_id (extract_reactions_with_openchemie oc pdf_path pages)
    = map (fun k => (Z.of_nat k + 1)%Z)
        (seq 0
           (length (extract_reactions_with_openchemie oc pdf_path pages)))).
  { unfold extract_reactions_with_openchemie.
    destruct (extract_reactions_from_figures_in_pdf oc pdf_path pages)
      as [figs|e]; [|reflexivity].
    unfold normalize_reactions. rewrite normalize_from_spec. simpl.
    rewrite length_imap. apply (reaction_ids_of_records 0). }
  split; [exact Hids|]. split; [|split].
  - rewrite Hids. apply NoDup_fmap_2; [|apply NoDup_seq].
    intros x y Hxy. lia.
  - unfold extract_reactions_with_openchemie.
    destruct (extract_reactions_from_figures_in_pdf oc pdf_path pages)
      as [figs|e]; [|constructor].
    unfold normalize_reactions. rewrite normalize_from_spec. simpl.
    apply Forall_forall. intros r Hr.
    apply elem_of_lookup_imap in Hr as (k & e & -> & Hk).
    apply list_elem_of_lookup_2, list_elem_of_In, filter_In in Hk as [_ Hc].
    apply record_of_fresh, Hc.
  - intros figs Hfigs. unfold extract_reactions_with_openchemie.
    rewrite Hfigs. unfold normalize_reactions.
    rewrite normalize_from_spec. simpl. rewrite length_imap.
    apply sublist_length, filter_sublist.
Qed.

Lemma filter_complete_pruned page0 rxns :
  List.filter complete (map (pair page0) (List.filter has_both rxns))
  = List.filter complete (map (pair page0) rxns).
Proof.
  induction rxns as [|rxn rxns IH]; simpl; [reflexivity|].
  change (complete (page0, rxn)) with (has_both rxn).
  destruct (has_both rxn) eqn:Hb; simpl.
  - change (complete (page0, rxn)) with (has_both rxn).
    rewrite Hb, IH. reflexivity.
  - exact IH.
Qed.

Lemma entries_from_pruned fig_idx figure_results :
  List.filter complete (entries_from fig_idx (map prune figure_results))
  = List.filter complete (entries_from fig_idx figure_results).
Proof.
  revert fig_idx. induction figure_results as [|fig rest IH];
    intros fig_idx; simpl; [reflexivity|].
  rewrite !List.filter_app, IH. f_equal.
  destruct (fig_reactions fig) as [rxns|]; simpl; [|reflexivity].
  apply filter_complete_pruned.
Qed.

(** An entry without both identifiers takes no number and leaves no
    trace: the records are those of the same figures with such entries
    taken out beforehand. *)
Theorem normalize_reactions_pruned (figure_results : list Figure) :
  normalize_reactions (map prune figure_results)
  = normalize_reactions figure_results.
Proof.
  unfold normalize_reactions.
  rewrite !normalize_from_spec, entries_from_pruned. reflexivity.
Qed.

(** ** More on the image stage *)

(** A second turn of the loop on a record changes nothing. *)
Lemma render_reaction_idem rd images_dir r :
  render_reaction rd images_dir (render_reaction rd images_dir r)
  = render_reaction rd images_dir r.
Proof.
  unfold render_reaction, render_reaction_body.
  destruct (MolFromSmiles rd (reactant_smiles r)) as [[|]|e1] eqn:H1;
    cbn; rewrite ?H1; cbn;
    destruct (MolFromSmiles rd (product_smiles r)) as [[|]|e2] eqn:H2;
    cbn; rewrite ?H1, ?H2; cbn; try reflexivity.
  destruct (draw_and_save rd (reactant_smiles r) _) as [[]|e3] eqn:H3;
    cbn; rewrite ?H1, ?H2, ?H3; cbn; try reflexivity.
  destruct (draw_and_save rd (product_smiles r) _) as [[]|e4] eqn:H4;
    cbn; rewrite ?H1, ?H2, ?H3, ?H4; cbn; reflexivity.
Qed.

Lemma count_images_bounds reactions :
  (0 <= count_images reactions <= Z.of_nat (length reactions))%Z.
Proof.
  unfold count_images.
  pose proof (sublist_length _ _
                (filter_sublist
                   (fun r => default false (images_generated r)) reactions)).
  lia.
Qed.

(** The stage writes the three image keys and nothing else: the
    records come back in the same order with the same number, page,
    identifiers and raw entry.  Running the stage again on what it
    returned returns the same list, and the pictures counted are never
    more than the records. *)
Theorem generate_reaction_images_keeps_records (rd : RDKit)
    (fs : FileSystem) (reactions : list Reaction) (output_dir : Path)
    (out : list Reaction) :
  generate_reaction_images rd fs reactions output_dir = Ok out ->
  map reaction_id out = map reaction_id reactions
  /\ map page out = map page reactions
  /\ map reactant_smiles out = map reactant_smiles reactions
  /\ map product_smiles out = map product_smiles reactions
  /\ map raw_data out = map raw_data reactions
  /\ generate_reaction_images rd fs out output_dir = Ok out
  /\ (0 <= count_images out <= Z.of_nat (length reactions))%Z.
Proof.
  unfold generate_reaction_images.
  destruct (rdkit_available rd) eqn:Hrd; simpl.
  - destruct (mkdir fs _) as [[]|e] eqn:Hdir; simpl; [|discriminate].
    intros [= <-].
    assert (Hfield : forall {B} (f : Reaction -> B),
              (forall r, f (render_reaction rd
                             (joinpath output_dir (lit "reaction_images")) r)
                         = f r) ->
              map f (map (render_reaction rd
                            (joinpath output_dir (lit "reaction_images")))
                       reactions)
              = map f reactions).
    { intros B f Hf. rewrite map_map. apply map_ext. exact Hf. }
    repeat split;
      try (apply Hfield; intros r;
           destruct (render_reaction_spec rd
                       (joinpath output_dir (lit "reaction_images")) r)
             as (_ & ? & ? & ? & ? & ? & _); assumption).
    + f_equal. rewrite map_map. apply map_ext, render_reaction_idem.
    + apply count_images_bounds.
    + pose proof (count_images_bounds
                    (map (render_reaction rd
                            (joinpath output_dir (lit "reaction_images")))
                       reactions)) as H.
      rewrite length_map in H. lia.
  - intros [= <-]. repeat split; try apply count_images_bounds.
Qed.

Lemma generate_reaction_images_keeps_records_witness :
  map reaction_id
    (map (render_reaction parses_but_one
            (joinpath (file_named "paper") (lit "reaction_images")))
       three_reactions)
  = map reaction_id three_reactions.
Proof.
  apply (generate_reaction_images_keeps_records parses_but_one only_files
           three_reactions (file_named "paper")).
  reflexivity.
Defined.

(** ** More on one file *)

Lemma generate_reaction_images_length rd fs reactions output_dir out :
  generate_reaction_images rd fs reactions output_dir = Ok out ->
  length out = length reactions.
Proof.
  unfold generate_reaction_images.
  destruct (rdkit_available rd); simpl.
  - destruct (mkdir fs _); simpl; [|discriminate].
    intros [= <-]. apply length_map.
  - intros [= <-]. reflexivity.
Qed.

Section StageFacts.
Variable W : World.
Variable args : Args.
Variable config : Config.

(** The fourth and fifth stages on a result that holds no outcome yet:
    they leave alone what the earlier stages wrote, and what they write
    hangs together. *)
Lemma stage_document_post pdf_path dir info reactions r :
  success r = false -> output_doc r = None -> doc_size_kb r = None ->
  raw_data_file r = None -> errors r = [] ->
  pdf_file (stage_document W args config pdf_path dir info reactions r)
    = pdf_file r
  /\ output_dir (stage_document W args config pdf_path dir info reactions r)
     = output_dir r
  /\ text_info (stage_document W args config pdf_path dir info reactions r)
     = text_info r
  /\ reactions_extracted
       (stage_document W args config pdf_path dir info reactions r)
     = reactions_extracted r
  /\ n_images_generated
       (stage_document W args config pdf_path dir info reactions r)
     = n_images_generated r
  /\ (success (stage_document W args config pdf_path dir info reactions r)
      = true <->
      is_Some
        (output_doc
           (stage_document W args config pdf_path dir info reactions r)))
  /\ (is_Some
        (doc_size_kb
           (stage_document W args config pdf_path dir info reactions r)) ->
      success (stage_document W args config pdf_path dir info reactions r)
      = true)
  /\ (is_Some
        (raw_data_file
           (stage_document W args config pdf_path dir info reactions r)) ->
      save_raw_data config = true)
  /\ length
       (errors (stage_document W args config pdf_path dir info reactions r))
     <= 2
  /\ (success (stage_document W args config pdf_path dir info reactions r)
      = true ->
      length
        (errors (stage_document W args config pdf_path dir info reactions r))
      <= 1).
Proof.
  intros Hs Hdoc Hsize Hraw Herr.
  unfold stage_document, stage_raw_data.
  destruct (create_word_document _ _ _ _ _ _ _) as [made|e];
    [destruct (returned made);
     [destruct (exists_path (fs W) _)|]; destruct (save_raw_data config);
     try destruct (dump_json (fs W) _)|];
    simpl; rewrite ?Hs, ?Hdoc, ?Hsize, ?Hraw, ?Herr; simpl;
    repeat split; intros; auto;
    try discriminate; try lia;
    try (eexists; reflexivity);
    try match goal with
        | H : is_Some None |- _ => destruct H; discriminate
        end.
Qed.

End StageFacts.

(** Every result [process_pdf] returns hangs together: it names the
    file and its directory; where pdfplumber can be imported the text
    summary and the reaction count are there, the count not negative;
    where it cannot, the result is the one the file starts with and the
    error of the import, nothing else being recorded; the picture
    count, when there, lies between zero and the reaction count; a
    success carries the text summary, which the summary lines of [main]
    read (line 651); the file is a success exactly when a document path
    is recorded; a document size is recorded only on success, a
    raw-data path only when the configuration asks for one; and there
    are at most two errors, at most one on success. *)
Theorem process_pdf_result_consistent (W : World) (args : Args)
    (config : Config) (pdf_path out_dir : Path) (r : ProcessResult) :
  process_pdf W args config pdf_path out_dir = Ok r ->
  pdf_file r = pdf_path
  /\ output_dir r = joinpath out_dir (stem pdf_path)
  /\ (import_pdfplumber W = Ok () ->
      is_Some (text_info r)
      /\ exists n, reactions_extracted r = Some n /\ (0 <= n)%Z)
  /\ (forall e,
        import_pdfplumber W = Raise e ->
        r = append_error e
              (new_result pdf_path (joinpath out_dir (stem pdf_path))))
  /\ (forall m,
        n_images_generated r = Some m ->
        exists n, reactions_extracted r = Some n /\ (0 <= m <= n)%Z)
  /\ (success r = true -> is_Some (text_info r))
  /\ (success r = true <-> is_Some (output_doc r))
  /\ (is_Some (doc_size_kb r) -> success r = true)
  /\ (is_Some (raw_data_file r) -> save_raw_data config = true)
  /\ length (errors r) <= 2
  /\ (success r = true -> length (errors r) <= 1).
Proof.
  rewrite process_pdf_outcome.
  destruct (mkdir (fs W) _) as [[]|]; [|discriminate].
  intros [= <-]. unfold process_stages.
  set (dir := joinpath out_dir (stem pdf_path)).
  destruct (extract_text_info _ _ _ _ _ _) as [info|e] eqn:Hext.
  2: { apply extract_text_info_raises in Hext. simpl.
       split; [reflexivity|]. split; [reflexivity|].
       split; [intros Himp; congruence|].
       split; [intros e' He'; congruence|].
       split; [discriminate|]. split; [discriminate|].
       split; [split; [discriminate | intros [? [=]]]|].
       split; [intros [? [=]]|]. split; [intros [? [=]]|].
       split; [lia | discriminate]. }
  apply extract_text_info_returns in Hext as [Himp _].
  unfold stage_images.
  set (reactions := extract_reactions_with_openchemie _ _ _).
  set (summary := Build_TextSummary _ _ _).
  destruct (truthy reactions && negb (no_images args)).
  - destruct (generate_reaction_images _ _ _ _) as [out|e] eqn:Hgen.
    + destruct (stage_document_post W args config pdf_path dir info out
                  (set_n_images_generated (count_images out)
                     (set_reactions_extracted (Z.of_nat (length reactions))
                        (set_text_info summary (new_result pdf_path dir))))
                  eq_refl eq_refl eq_refl eq_refl eq_refl)
        as (-> & -> & -> & -> & -> & Hdoc & Hsize & Hraw & Herr & Herr1).
      simpl.
      split; [reflexivity|]. split; [reflexivity|].
      split; [intros _; split; [eexists; reflexivity|];
              exists (Z.of_nat (length reactions));
              split; [reflexivity | lia]|].
      split; [intros e' He'; congruence|].
      split; [|split; [intros _; eexists; reflexivity|];
               repeat split; try assumption; apply Hdoc].
      intros m [= <-]. exists (Z.of_nat (length reactions)).
      split; [reflexivity|].
      pose proof (count_images_bounds out) as Hc.
      rewrite (generate_reaction_images_length _ _ _ _ _ Hgen) in Hc.
      exact Hc.
    + simpl.
      split; [reflexivity|]. split; [reflexivity|].
      split; [intros _; split; [eexists; reflexivity|];
              exists (Z.of_nat (length reactions));
              split; [reflexivity | lia]|].
      split; [intros e' He'; congruence|].
      split; [discriminate|]. split; [discriminate|].
      split; [split; [discriminate | intros [? [=]]]|].
      split; [intros [? [=]]|]. split; [intros [? [=]]|].
      split; [lia | discriminate].
  - destruct (stage_document_post W args config pdf_path dir info reactions
                (set_reactions_extracted (Z.of_nat (length reactions))
                   (set_text_info summary (new_result pdf_path dir)))
                eq_refl eq_refl eq_refl eq_refl eq_refl)
      as (-> & -> & -> & -> & -> & Hdoc & Hsize & Hraw & Herr & Herr1).
    simpl.
    split; [reflexivity|]. split; [reflexivity|].
    split; [intros _; split; [eexists; reflexivity|];
            exists (Z.of_nat (length reactions));
            split; [reflexivity | lia]|].
    split; [intros e' He'; congruence|].
    split; [discriminate|]. split; [intros _; eexists; reflexivity|].
    repeat split; try assumption; apply Hdoc.
Qed.

Lemma process_pdf_result_consistent_witness :
  success
    (result_of (two_file_world false) batch_args no_config
       (output batch_args) (file_named "second.pdf")) = true
  <-> is_Some
        (output_doc
           (result_of (two_file_world false) batch_args no_config
              (output batch_args) (file_named "second.pdf"))).
Proof.
  apply (process_pdf_result_consistent (two_file_world false) batch_args
           no_config (file_named "second.pdf") (output batch_args)
           (result_of (two_file_world false) batch_args no_config
              (output batch_args) (file_named "second.pdf"))).
  reflexivity.
Defined.

Section FileEdges.
Variable W : World.
Variable args : Args.
Variable config : Config.

Lemma stage_document_made pdf_path out_dir info reactions r made :
  create_word_document (docx W) (fs W) info reactions
    (doc_path out_dir pdf_path) (language args) (template args) = Ok made ->
  returned made = true ->
  stage_document W args config pdf_path (joinpath out_dir (stem pdf_path))
    info reactions r
  = stage_raw_data W config pdf_path (joinpath out_dir (stem pdf_path))
      (if exists_path (fs W) (doc_path out_dir pdf_path)
       then set_doc_size_kb
              (st_size (fs W) (doc_path out_dir pdf_path) / 1024)
              (set_output_doc (doc_path out_dir pdf_path) r)
       else set_output_doc (doc_path out_dir pdf_path) r).
Proof.
  intros Hmade Hret. unfold stage_document. fold (doc_path out_dir pdf_path).
  rewrite Hmade, Hret. reflexivity.
Qed.

(** Where pdfplumber can be imported the first stage returns the record
    of its [try] statement, and the later stages go on from it. *)
Lemma process_stages_imported pdf_path dir r :
  import_pdfplumber W = Ok () ->
  process_stages W args config pdf_path dir r
  = stage_images W args config pdf_path dir (text_of W args pdf_path)
      (extract_reactions_with_openchemie (openchemie W) pdf_path
         (max_pages args))
      (set_reactions_extracted
         (Z.of_nat
            (length
               (extract_reactions_with_openchemie (openchemie W) pdf_path
                  (max_pages args))))
         (set_text_info
            {| compounds_found :=
                 Z.of_nat (length (compounds (text_of W args pdf_path)));
               experimental_text_length :=
                 Z.of_nat
                   (length (experimental_text (text_of W args pdf_path)));
               physical_props_count :=
                 Z.of_nat
                   (length (physical_props (text_of W args pdf_path))) |}
            r)).
Proof.
  intros Himp. unfold process_stages, extract_text_info, text_of.
  rewrite Himp. reflexivity.
Qed.

Lemma first_refused_none dx blocks :
  (forall text, add_text dx text = Ok ()) -> first_refused dx blocks = None.
Proof.
  intros Hadd. induction blocks as [|[style text| |runs] blocks IH]; simpl;
    [reflexivity | rewrite Hadd; destruct (truthy text); exact IH
    | exact IH | exact IH].
Qed.

Lemma create_word_document_returns info reactions output_path opened :
  docx_available (docx W) = true ->
  open_document (docx W) (fs W) (template args) = Ok opened ->
  (forall text, add_text (docx W) text = Ok ()) ->
  (forall doc, save (docx W) doc output_path = Ok ()) ->
  exists made,
    create_word_document (docx W) (fs W) info reactions output_path
      (language args) (template args) = Ok made
    /\ returned made = true.
Proof.
  intros Hav Hopen Hadd Hsave. rewrite create_word_document_cases.
  rewrite Hav, Hopen, (first_refused_none _ _ Hadd), Hsave.
  eexists. split; reflexivity.
Qed.

(** The image stage returns when it is skipped by RDKit's absence or
    its directory can be made. *)
Lemma generate_reaction_images_returns reactions dir :
  rdkit_available (rdkit W) = false
  \/ mkdir (fs W) (joinpath dir (lit "reaction_images")) = Ok () ->
  exists out,
    generate_reaction_images (rdkit W) (fs W) reactions dir = Ok out.
Proof.
  unfold generate_reaction_images. intros [->| Hdir]; simpl; [eauto|].
  destruct (rdkit_available (rdkit W)); simpl; [|eauto].
  rewrite Hdir. simpl. eauto.
Qed.

End FileEdges.

(** A file can be a success and carry an error: when pdfplumber can be
    imported, the document of the file is assembled and saved, the
    configuration asks for the raw data, and dumping them raises, the
    result has [success] set, the message of the dump among its errors
    and no raw-data path. *)
Theorem process_pdf_success_with_error (W : World) (args : Args)
    (config : Config) (pdf_path out_dir : Path) (opened : Document)
    (e : str) :
  mkdir (fs W) (joinpath out_dir (stem pdf_path)) = Ok () ->
  import_pdfplumber W = Ok () ->
  (no_images args = true
   \/ rdkit_available (rdkit W) = false
   \/ mkdir (fs W)
        (joinpath (joinpath out_dir (stem pdf_path)) (lit "reaction_images"))
      = Ok ()) ->
  docx_available (docx W) = true ->
  open_document (docx W) (fs W) (template args) = Ok opened ->
  (forall text, add_text (docx W) text = Ok ()) ->
  (forall doc, save (docx W) doc (doc_path out_dir pdf_path) = Ok ()) ->
  save_raw_data config = true ->
  dump_json (fs W) (raw_path out_dir pdf_path) = Raise e ->
  exists r,
    process_pdf W args config pdf_path out_dir = Ok r
    /\ success r = true
    /\ errors r = [e]
    /\ output_doc r = Some (doc_path out_dir pdf_path)
    /\ raw_data_file r = None.
Proof.
  intros Hdir Himp Himages Hav Hopen Hadd Hsave Hraw Hdump.
  rewrite process_pdf_outcome, Hdir. eexists. split; [reflexivity|].
  rewrite (process_stages_imported W args config _ _ _ Himp).
  set (dir := joinpath out_dir (stem pdf_path)).
  set (info := text_of _ _ _).
  set (reactions := extract_reactions_with_openchemie _ _ _).
  set (summary := Build_TextSummary _ _ _).
  assert (Hdoc : forall rs r0,
            errors r0 = [] -> raw_data_file r0 = None ->
            success (stage_document W args config pdf_path dir info rs r0)
            = true
            /\ errors (stage_document W args config pdf_path dir info rs r0)
               = [e]
            /\ output_doc
                 (stage_document W args config pdf_path dir info rs r0)
               = Some (doc_path out_dir pdf_path)
            /\ raw_data_file
                 (stage_document W args config pdf_path dir info rs r0)
               = None).
  { intros rs r0 Herr Hnone.
    destruct (create_word_document_returns W args info rs
                (doc_path out_dir pdf_path) opened Hav Hopen Hadd Hsave)
      as (made & Hmade & Hret).
    unfold dir.
    rewrite (stage_document_made W args config _ _ _ _ _ made Hmade Hret).
    unfold stage_raw_data. rewrite Hraw.
    fold (raw_path out_dir pdf_path). rewrite Hdump.
    destruct (exists_path (fs W) _); simpl; rewrite Herr, Hnone; auto. }
  unfold stage_images.
  destruct (truthy reactions && negb (no_images args)) eqn:Hcond.
  - assert (Hret : rdkit_available (rdkit W) = false
                   \/ mkdir (fs W) (joinpath dir (lit "reaction_images"))
                      = Ok ()).
    { destruct Himages as [Hno|[H|H]]; auto.
      rewrite Hno, andb_false_r in Hcond. discriminate. }
    destruct (generate_reaction_images_returns W reactions dir Hret)
      as (out & ->).
    apply Hdoc; reflexivity.
  - apply Hdoc; reflexivity.
Qed.

Lemma process_pdf_success_with_error_witness :
  exists r,
    process_pdf (dump_fails parses_but_one false) batch_args raw_config
      (file_named "first.pdf") (output batch_args) = Ok r
    /\ success r = true
    /\ errors r = [lit "Object of type Tensor is not JSON serializable"]
    /\ output_doc r
       = Some (doc_path (output batch_args) (file_named "first.pdf"))
    /\ raw_data_file r = None.
Proof.
  apply (process_pdf_success_with_error (dump_fails parses_but_one false)
           batch_args raw_config (file_named "first.pdf")
           (output batch_args) []);
    first [reflexivity | right; right; reflexivity | intros ?; reflexivity].
Defined.

(** The image stage can fail a file: when pdfplumber can be imported,
    reactions were found, images are asked for, RDKit is there and the
    directory of the images cannot be made, the exception ends the
    [try]; the file is a failure with that one error, and its document
    is never attempted. *)
Theorem process_pdf_images_directory_failure (W : World) (args : Args)
    (config : Config) (pdf_path out_dir : Path) (e : str) :
  mkdir (fs W) (joinpath out_dir (stem pdf_path)) = Ok () ->
  import_pdfplumber W = Ok () ->
  no_images args = false ->
  extract_reactions_with_openchemie (openchemie W) pdf_path (max_pages args)
    <> [] ->
  rdkit_available (rdkit W) = true ->
  mkdir (fs W)
    (joinpath (joinpath out_dir (stem pdf_path)) (lit "reaction_images"))
  = Raise e ->
  exists r,
    process_pdf W args config pdf_path out_dir = Ok r
    /\ success r = false
    /\ errors r = [e]
    /\ output_doc r = None
    /\ n_images_generated r = None
    /\ raw_data_file r = None.
Proof.
  intros Hdir Himp Hno Hrs Hrd Himg.
  rewrite process_pdf_outcome, Hdir. eexists. split; [reflexivity|].
  rewrite (process_stages_imported W args config _ _ _ Himp).
  unfold stage_images. rewrite Hno.
  destruct (extract_reactions_with_openchemie _ _ _) as [|r0 rs];
    [congruence|].
  cbn [truthy negb andb].
  unfold generate_reaction_images. rewrite Hrd. cbn [negb].
  rewrite Himg. cbn. repeat split.
Qed.

Lemma process_pdf_images_directory_failure_witness :
  exists r,
    process_pdf (dump_fails parses_but_one true) batch_args raw_config
      (file_named "first.pdf") (output batch_args) = Ok r
    /\ success r = false
    /\ errors r = [lit "[Errno 13] Permission denied"]
    /\ output_doc r = None
    /\ n_images_generated r = None
    /\ raw_data_file r = None.
Proof.
  apply (process_pdf_images_directory_failure
           (dump_fails parses_but_one true) batch_args raw_config
           (file_named "first.pdf") (output batch_args));
    try reflexivity.
  discriminate.
Defined.

(** The assembler can fail a file by raising: when pdfplumber can be
    imported, the image stage is skipped, and the assembly of the
    document raises (the template cannot be opened, python-docx refuses
    the text of a paragraph, or the document cannot be saved), the
    exception ends the [try]; the file is a failure with that one
    error, no document path is recorded, and the raw data are not
    dumped even when the configuration asks for them. *)
Theorem process_pdf_document_failure (W : World) (args : Args)
    (config : Config) (pdf_path out_dir : Path) (e : str) :
  mkdir (fs W) (joinpath out_dir (stem pdf_path)) = Ok () ->
  import_pdfplumber W = Ok () ->
  (no_images args = true
   \/ extract_reactions_with_openchemie (openchemie W) pdf_path
        (max_pages args) = []) ->
  create_word_document (docx W) (fs W) (text_of W args pdf_path)
    (extract_reactions_with_openchemie (openchemie W) pdf_path
       (max_pages args))
    (doc_path out_dir pdf_path) (language args) (template args)
  = Raise e ->
  exists r,
    process_pdf W args config pdf_path out_dir = Ok r
    /\ success r = false
    /\ errors r = [e]
    /\ output_doc r = None
    /\ doc_size_kb r = None
    /\ raw_data_file r = None.
Proof.
  intros Hdir Himp Hskip Hraise.
  assert (Hcond : truthy
                    (extract_reactions_with_openchemie (openchemie W)
                       pdf_path (max_pages args))
                  && negb (no_images args) = false).
  { destruct Hskip as [-> | ->]; [apply andb_false_r | reflexivity]. }
  rewrite process_pdf_outcome, Hdir. eexists. split; [reflexivity|].
  rewrite (process_stages_imported W args config _ _ _ Himp).
  unfold stage_images. rewrite Hcond.
  unfold stage_document. fold (doc_path out_dir pdf_path).
  rewrite Hraise. cbn. repeat split.
Qed.

Lemma process_pdf_document_failure_witness :
  exists r,
    process_pdf (two_file_world false) batch_args_no_images raw_config
      (file_named "first.pdf") (output batch_args_no_images) = Ok r
    /\ success r = false
    /\ errors r = [lit "[Errno 28] No space left on device"]
    /\ output_doc r = None
    /\ doc_size_kb r = None
    /\ raw_data_file r = None.
Proof.
  apply (process_pdf_document_failure (two_file_world false)
           batch_args_no_images raw_config (file_named "first.pdf")
           (output batch_args_no_images));
    first [reflexivity | left; reflexivity | vm_compute; reflexivity].
Defined.

(** With [--no-images], or when no reaction was found, RDKit plays no
    part: the file's outcome is the same with any RDKit, installed or
    not, and its result holds no picture count. *)
Theorem process_pdf_without_images (W : World) (args : Args)
    (config : Config) (pdf_path out_dir : Path) (rd : RDKit) :
  no_images args = true
  \/ extract_reactions_with_openchemie (openchemie W) pdf_path
       (max_pages args) = [] ->
  process_pdf (with_rdkit rd W) args config pdf_path out_dir
  = process_pdf W args config pdf_path out_dir
  /\ (forall r,
        process_pdf W args config pdf_path out_dir = Ok r ->
        n_images_generated r = None).
Proof.
  intros Hskip.
  assert (Hcond : truthy
                    (extract_reactions_with_openchemie (openchemie W)
                       pdf_path (max_pages args))
                  && negb (no_images args) = false).
  { destruct Hskip as [-> | ->]; [apply andb_false_r | reflexivity]. }
  split.
  - unfold process_pdf, process_stages.
    cbn [with_rdkit fs import_pdfplumber pdfplumber regex iter_set
         openchemie].
    destruct (extract_text_info _ _ _ _ _ _) as [info|e]; [|reflexivity].
    unfold stage_images.
    cbn [with_rdkit fs import_pdfplumber pdfplumber regex iter_set
         openchemie].
    rewrite Hcond. reflexivity.
  - intros r. rewrite process_pdf_outcome.
    destruct (mkdir (fs W) _) as [[]|]; [|discriminate].
    intros [= <-]. unfold process_stages.
    destruct (extract_text_info _ _ _ _ _ _) as [info|e]; [|reflexivity].
    unfold stage_images. rewrite Hcond.
    match goal with
    | |- n_images_generated
           (stage_document W args config ?p ?d ?i ?rs ?r0) = None =>
        destruct (stage_document_post W args config p d i rs r0
                    eq_refl eq_refl eq_refl eq_refl eq_refl)
          as (_ & _ & _ & _ & -> & _)
    end.
    reflexivity.
Qed.

Lemma process_pdf_without_images_witness :
  process_pdf (with_rdkit no_rdkit (two_file_world false))
    batch_args_no_images no_config (file_named "second.pdf")
    (output batch_args_no_images)
  = process_pdf (two_file_world false) batch_args_no_images no_config
      (file_named "second.pdf") (output batch_args_no_images).
Proof.
  apply (process_pdf_without_images (two_file_world false)
           batch_args_no_images no_config (file_named "second.pdf")
           (output batch_args_no_images) no_rdkit).
  left. reflexivity.
Defined.

(** An exception of the recognition model does not fail the file:
    where pdfplumber can be imported, so that the recognition stage is
    reached, the exception is caught inside that stage, the file counts
    zero reactions and no pictures, and it is a success exactly when
    the document without reactions is assembled. *)
Theorem process_pdf_recognition_failure (W : World) (args : Args)
    (config : Config) (pdf_path out_dir : Path) (e : str) :
  mkdir (fs W) (joinpath out_dir (stem pdf_path)) = Ok () ->
  import_pdfplumber W = Ok () ->
  extract_reactions_from_figures_in_pdf (openchemie W) pdf_path
    (max_pages args) = Raise e ->
  exists r,
    process_pdf W args config pdf_path out_dir = Ok r
    /\ reactions_extracted r = Some 0%Z
    /\ n_images_generated r = None
    /\ (success r = true <->
        exists made,
          create_word_document (docx W) (fs W) (text_of W args pdf_path) []
            (doc_path out_dir pdf_path) (language args) (template args)
          = Ok made
          /\ returned made = true).
Proof.
  intros Hdir Himp Hraise.
  rewrite process_pdf_outcome, Hdir. eexists. split; [reflexivity|].
  rewrite (process_stages_imported W args config _ _ _ Himp).
  unfold stage_images.
  rewrite (recognition_failure_is_swallowed _ _ _ _ Hraise).
  cbn [truthy andb length].
  match goal with
  | |- context [stage_document W args config ?p ?d ?i ?rs ?r0] =>
      destruct (stage_document_post W args config p d i rs r0
                  eq_refl eq_refl eq_refl eq_refl eq_refl)
        as (_ & _ & _ & -> & -> & _)
  end.
  split; [reflexivity|]. split; [reflexivity|].
  unfold stage_document. fold (doc_path out_dir pdf_path).
  destruct (create_word_document _ _ _ _ _ _ _) as [made|e'].
  - match goal with
    | |- context [stage_raw_data W config ?p ?d ?r'] =>
        destruct (stage_raw_data_keeps W config p d r') as [-> _]
    end.
    destruct (returned made) eqn:Hret.
    + split; [intros _; eauto|]. intros _.
      destruct (exists_path (fs W) _); reflexivity.
    + simpl. split; [discriminate|].
      intros (made' & [= <-] & Hret'). congruence.
  - simpl. split; [discriminate|]. intros (made' & Hm & _). discriminate Hm.
Qed.

Lemma process_pdf_recognition_failure_witness :
  exists r,
    process_pdf world_without_model batch_args no_config
      (file_named "second.pdf") (output batch_args) = Ok r
    /\ reactions_extracted r = Some 0%Z
    /\ success r = true.
Proof.
  destruct (process_pdf_recognition_failure world_without_model batch_args
              no_config (file_named "second.pdf") (output batch_args)
              (lit "No module named 'torch'") eq_refl eq_refl eq_refl)
    as (r & Hr & Hn & _ & Hs).
  exists r. split; [exact Hr|]. split; [exact Hn|].
  apply Hs. eexists. split; [vm_compute; reflexivity | reflexivity].
Defined.

(** ** More on the batch *)

(** One success is enough: when the directories of the files can be
    made and the report can be written, a run in which some file is a
    success returns 0, with one result for each file in the order they
    were found, whatever became of the other files. *)
Theorem main_one_success_suffices (W : World) (args : Args)
    (config : Config) (f : Path) :
  Forall (fun f => mkdir (fs W) (joinpath (output args) (stem f)) = Ok ())
    (find_pdf_files (fs W) (input args) (include_si args)) ->
  write_report W (joinpath (output args) (lit "processing_report.json"))
  = Ok () ->
  f ∈ find_pdf_files (fs W) (input args) (include_si args) ->
  success (result_of W args config (output args) f) = true ->
  main W args config
  = Ok {| status := 0;
          results :=
            map (result_of W args config (output args))
              (find_pdf_files (fs W) (input args) (include_si args));
          report :=
            Some (map (result_of W args config (output args))
                    (find_pdf_files (fs W) (input args) (include_si args))) |}.
Proof.
  intros Hdirs Hreport Hin Hsuccess. unfold main.
  destruct (find_pdf_files (fs W) (input args) (include_si args))
    as [|f0 files] eqn:Hfiles;
    [apply elem_of_nil in Hin; contradiction|].
  cbn [truthy negb].
  rewrite (process_all_results W args config _ _ [] Hdirs).
  cbn [mbind exc_bind app]. rewrite Hreport. cbn [mbind exc_bind].
  replace (0 <? success_count
                  (map (result_of W args config (output args)) (f0 :: files)))%Z
    with true; [reflexivity|].
  symmetry. apply success_count_pos.
  exists (result_of W args config (output args) f).
  split; [|exact Hsuccess].
  apply list_elem_of_fmap. eauto.
Qed.

Lemma main_one_success_suffices_witness :
  exists run,
    main (two_file_world false) batch_args no_config = Ok run
    /\ status run = 0%Z.
Proof.
  eexists. split.
  - apply (main_one_success_suffices (two_file_world false) batch_args
             no_config (file_named "second.pdf")).
    + repeat constructor.
    + reflexivity.
    + apply list_elem_of_further, list_elem_of_here.
    + vm_compute. reflexivity.
  - reflexivity.
Defined.

(** A run ends at the first file whose directory cannot be made: the
    exception of line 527 is what [main] raises, so the run returns no
    status and writes no report, whatever the files before it gave. *)
Theorem main_directory_failure_ends_run (W : World) (args : Args)
    (config : Config) (before after : list Path) (f : Path) (e : str) :
  find_pdf_files (fs W) (input args) (include_si args)
  = before ++ f :: after ->
  Forall (fun f => mkdir (fs W) (joinpath (output args) (stem f)) = Ok ())
    before ->
  mkdir (fs W) (joinpath (output args) (stem f)) = Raise e ->
  main W args config = Raise e.
Proof.
  intros Hfiles Hbefore Hf. unfold main. rewrite Hfiles.
  replace (negb (truthy (before ++ f :: after))) with false
    by (destruct before; reflexivity).
  rewrite (process_all_escapes W args config before f after (output args)
             [] e Hbefore Hf).
  reflexivity.
Qed.

Lemma main_directory_failure_ends_run_witness :
  main (two_file_world true) batch_args no_config
  = Raise (lit "[Errno 17] File exists: 'results/first'").
Proof.
  apply (main_directory_failure_ends_run (two_file_world true) batch_args
           no_config [] [file_named "second.pdf"] (file_named "first.pdf")).
  - reflexivity.
  - constructor.
  - reflexivity.
Defined.

(** ** More on the document *)







(** ** The names of the picture files *)

Lemma lit_inj s t : lit s = lit t -> s = t.
Proof.
  unfold lit. intros H.
  rewrite <- (string_of_list_ascii_of_string s),
    <- (string_of_list_ascii_of_string t).
  f_equal. revert H.
  generalize (list_ascii_of_string s) (list_ascii_of_string t).
  induction l as [|a l IH]; intros [|b l']; simpl; try discriminate;
    [reflexivity|].
  intros [= Hab Hl]. f_equal; [|apply IH, Hl].
  rewrite <- (ascii_N_embedding a), <- (ascii_N_embedding b), Hab.
  reflexivity.
Qed.

(** [str] of an [int] tells the integers apart. *)
Lemma str_of_int_inj n m : str_of_int n = str_of_int m -> n = m.
Proof.
  unfold str_of_int. intros H. apply lit_inj in H.
  apply DecimalZ.to_int_inj.
  assert (Hnz : forall z, Z.to_int z <> Decimal.Pos Decimal.Nil
                          /\ Z.to_int z <> Decimal.Neg Decimal.Nil).
  { intros [|p|p]; simpl; split; try discriminate;
      intros [= Hp]; exact (Unsigned.to_uint_nonnil p Hp). }
  destruct (Hnz n) as [Hn1 Hn2]. destruct (Hnz m) as [Hm1 Hm2].
  pose proof (NilZero.isi _ Hn1 Hn2) as Hin.
  pose proof (NilZero.isi _ Hm1 Hm2) as Him.
  rewrite H in Hin. congruence.
Qed.

(** The file names of lines 345 and 350 tell the reactions and the two
    roles apart. *)
Lemma image_name_inj n m role role' :
  role = "reactant"%string \/ role = "product"%string ->
  role' = "reactant"%string \/ role' = "product"%string ->
  image_name n role = image_name m role' -> n = m /\ role = role'.
Proof.
  unfold image_name. intros Hrole Hrole' H.
  apply app_inv_head in H.
  destruct Hrole as [-> | ->], Hrole' as [-> | ->].
  - apply app_inv_tail in H. split; [apply str_of_int_inj, H | reflexivity].
  - exfalso. apply (f_equal (fun l => take 12 (rev l))) in H.
    rewrite !rev_app_distr in H. vm_compute in H. discriminate H.
  - exfalso. apply (f_equal (fun l => take 12 (rev l))) in H.
    rewrite !rev_app_distr in H. vm_compute in H. discriminate H.
  - apply app_inv_tail in H. split; [apply str_of_int_inj, H | reflexivity].
Qed.

Lemma joinpath_inj d a b : joinpath d a = joinpath d b -> a = b.
Proof. intros H. apply (f_equal name) in H. exact H. Qed.

Lemma image_files_render rd images_dir r :
  reactant_image r = None -> product_image r = None ->
  image_files (render_reaction rd images_dir r)
  = if renders rd images_dir r
    then [joinpath images_dir (image_name (reaction_id r) "reactant");
          joinpath images_dir (image_name (reaction_id r) "product")]
    else [].
Proof.
  intros Hr Hp. unfold image_files.
  destruct (render_reaction_spec rd images_dir r)
    as (_ & _ & _ & _ & _ & _ & Hyes & Hno).
  destruct (renders rd images_dir r).
  - destruct (Hyes eq_refl) as [-> ->]. reflexivity.
  - destruct (Hno eq_refl) as [-> ->]. rewrite Hr, Hp. reflexivity.
Qed.

Lemma rendered_files_distinct rd images_dir reactions :
  NoDup (map reaction_id reactions) ->
  Forall fresh_record reactions ->
  NoDup (flat_map image_files
           (map (render_reaction rd images_dir) reactions))
  /\ (forall file,
        file ∈ flat_map image_files
                 (map (render_reaction rd images_dir) reactions) ->
        exists r role,
          r ∈ reactions
          /\ (role = "reactant"%string \/ role = "product"%string)
          /\ file = joinpath images_dir (image_name (reaction_id r) role)).
Proof.
  intros Hids Hfresh. revert Hids.
  induction Hfresh as [|r reactions Hr _ IH]; simpl; intros Hids.
  - split; [constructor|]. intros file Hin.
    apply elem_of_nil in Hin. contradiction.
  - apply NoDup_cons in Hids as [Hid Hids].
    destruct (IH Hids) as [IHnodup IHfrom].
    destruct Hr as (_ & _ & _ & Hri & Hpi).
    rewrite (image_files_render rd images_dir r Hri Hpi).
    assert (Hhead : forall file,
              file ∈ (if renders rd images_dir r
                      then [joinpath images_dir
                              (image_name (reaction_id r) "reactant");
                            joinpath images_dir
                              (image_name (reaction_id r) "product")]
                      else []) ->
              exists role,
                (role = "reactant"%string \/ role = "product"%string)
                /\ file = joinpath images_dir
                            (image_name (reaction_id r) role)).
    { intros file Hin. destruct (renders rd images_dir r);
        [|apply elem_of_nil in Hin; contradiction].
      apply elem_of_cons in Hin as [->|Hin]; [eauto|].
      apply list_elem_of_singleton in Hin as ->. eauto. }
    split.
    + apply NoDup_app. split; [|split; [|exact IHnodup]].
      * destruct (renders rd images_dir r); [|constructor].
        apply NoDup_cons. split; [|apply NoDup_singleton].
        intros Hin. apply list_elem_of_singleton in Hin.
        apply joinpath_inj, image_name_inj in Hin as [_ Hrole]; auto.
        discriminate.
      * intros file Hin Hin'.
        destruct (Hhead file Hin) as (role & Hrole & ->).
        destruct (IHfrom _ Hin') as (r' & role' & Hr' & Hrole' & Heq).
        apply joinpath_inj, image_name_inj in Heq as [Hsame _]; auto.
        apply Hid. rewrite Hsame. apply list_elem_of_fmap. eauto.
    + intros file Hin. apply elem_of_app in Hin as [Hin|Hin].
      * destruct (Hhead file Hin) as (role & Hrole & ->).
        exists r, role. split; [apply list_elem_of_here | auto].
      * destruct (IHfrom _ Hin) as (r' & role' & Hr' & Hrole' & ->).
        exists r', role'. split; [apply list_elem_of_further, Hr' | auto].
Qed.

(** No picture of a document overwrites another: the files recorded by
    the image stage on the reactions that the recognition stage hands
    on are all different, each named after the number of its reaction
    and its role. *)
Theorem image_files_never_clash (oc : OpenChemIE) (rd : RDKit)
    (fs : FileSystem) (pdf_path output_dir : Path) (pages : Z)
    (out : list Reaction) :
  generate_reaction_images rd fs
    (extract_reactions_with_openchemie oc pdf_path pages) output_dir
  = Ok out ->
  NoDup (flat_map image_files out)
  /\ (forall file,
        file ∈ flat_map image_files out ->
        exists r role,
          r ∈ out
          /\ (role = "reactant"%string \/ role = "product"%string)
          /\ file = joinpath (joinpath output_dir (lit "reaction_images"))
                      (image_name (reaction_id r) role)).
Proof.
  assert (Hids : NoDup (map reaction_id
                          (extract_reactions_with_openchemie oc pdf_path
                             pages))
                 /\ Forall fresh_record
                      (extract_reactions_with_openchemie oc pdf_path pages)).
  { unfold extract_reactions_with_openchemie.
    destruct (extract_reactions_from_figures_in_pdf oc pdf_path pages)
      as [figs|e]; [|split; constructor].
    unfold normalize_reactions. rewrite normalize_from_spec. simpl. split.
    - rewrite (reaction_ids_of_records 0).
      apply NoDup_fmap_2; [|apply NoDup_seq]. intros x y Hxy. lia.
    - apply Forall_forall. intros r Hr.
      apply elem_of_lookup_imap in Hr as (k & e & -> & Hk).
      apply list_elem_of_lookup_2, list_elem_of_In, filter_In in Hk
        as [_ Hc].
      apply record_of_fresh, Hc. }
  destruct Hids as [Hids Hfresh].
  unfold generate_reaction_images.
  destruct (rdkit_available rd); simpl.
  - destruct (mkdir fs _) as [[]|]; simpl; [|discriminate].
    intros [= <-].
    destruct (rendered_files_distinct rd
                (joinpath output_dir (lit "reaction_images")) _ Hids Hfresh)
      as [Hnodup Hfrom].
    split; [exact Hnodup|].
    intros file Hin. destruct (Hfrom file Hin) as (r & role & Hr & Hrole & ->).
    exists (render_reaction rd
              (joinpath output_dir (lit "reaction_images")) r), role.
    split; [apply list_elem_of_fmap; eauto|]. split; [exact Hrole|].
    destruct (render_reaction_spec rd
                (joinpath output_dir (lit "reaction_images")) r)
      as (_ & -> & _). reflexivity.
  - intros [= <-].
    assert (Hnone : flat_map image_files
                      (extract_reactions_with_openchemie oc pdf_path pages)
                    = []).
    { induction Hfresh as [|r rs (_ & _ & _ & Hr & Hp) _ IH];
        [reflexivity|].
      apply NoDup_cons in Hids as [_ Hids].
      simpl. rewrite (IH Hids). unfold image_files. rewrite Hr, Hp.
      reflexivity. }
    rewrite Hnone. split; [constructor|].
    intros file Hin. apply elem_of_nil in Hin. contradiction.
Qed.

Lemma image_files_never_clash_witness :
  NoDup
    (flat_map image_files
       (map (render_reaction parses_but_one
               (joinpath (file_named "paper") (lit "reaction_images")))
          (extract_reactions_with_openchemie
             {| extract_reactions_from_figures_in_pdf :=
                  fun _ _ => Ok [figure_two_entries; figure_two_entries] |}
             (file_named "paper.pdf") 5))).
Proof.
  apply (image_files_never_clash
           {| extract_reactions_from_figures_in_pdf :=
                fun _ _ => Ok [figure_two_entries; figure_two_entries] |}
           parses_but_one only_files (file_named "paper.pdf")
           (file_named "paper") 5).
  reflexivity.
Defined.

(** ** The results of a run and the files found *)

Lemma process_all_ok W args config pdf_files out_dir results all :
  process_all W args config pdf_files out_dir results = Ok all ->
  all = results ++ map (result_of W args config out_dir) pdf_files.
Proof.
  revert results. induction pdf_files as [|f pdf_files IH];
    intros results; simpl.
  - intros [= <-]. rewrite app_nil_r. reflexivity.
  - rewrite process_pdf_outcome.
    destruct (mkdir (fs W) _) as [[]|]; simpl; [|discriminate].
    intros H. apply IH in H. rewrite H, <- app_assoc. reflexivity.
Qed.

Lemma result_of_names_file W args config out_dir f :
  pdf_file (result_of W args config out_dir f) = f.
Proof. apply process_stages_result. Qed.

(** The results of a run that returns are those of the files found,
    one for each and in the order they were found; each is a success or
    carries an error; the report holds the same results, and is written
    unless no file was found.  Under a directory and without the option
    for supplementary files, no result is about a file with [SI] in its
    name. *)
Theorem main_results_follow_files (W : World) (args : Args)
    (config : Config) (run : BatchRun) :
  main W args config = Ok run ->
  map pdf_file (results run)
  = find_pdf_files (fs W) (input args) (include_si args)
  /\ results run
     = map (result_of W args config (output args))
         (find_pdf_files (fs W) (input args) (include_si args))
  /\ report run
     = match find_pdf_files (fs W) (input args) (include_si args) with
       | [] => None
       | _ => Some (results run)
       end
  /\ Forall (fun r => success r = true \/ errors r <> []) (results run)
  /\ (is_file (fs W) (input args) = false ->
      is_dir (fs W) (input args) = true ->
      include_si args = false ->
      Forall (fun r => contains (name (pdf_file r)) (lit "SI") = false)
        (results run)).
Proof.
  intros Hrun.
  assert (Hres : results run
                 = map (result_of W args config (output args))
                     (find_pdf_files (fs W) (input args) (include_si args))
                 /\ report run
                    = match find_pdf_files (fs W) (input args)
                              (include_si args) with
                      | [] => None
                      | _ => Some (results run)
                      end).
  { unfold main in Hrun.
    destruct (find_pdf_files (fs W) (input args) (include_si args))
      as [|f files].
    - simpl in Hrun. injection Hrun as <-. split; reflexivity.
    - cbn [truthy negb] in Hrun.
      destruct (process_all W args config (f :: files) (output args) [])
        as [all|] eqn:Hall; [|discriminate Hrun].
      cbn [mbind exc_bind] in Hrun.
      destruct (write_report W _) as [[]|]; [|discriminate Hrun].
      injection Hrun as <-. apply process_all_ok in Hall.
      simpl. split; [exact Hall | reflexivity]. }
  destruct Hres as [Hres Hreport].
  assert (Hnames : map pdf_file (results run)
                   = find_pdf_files (fs W) (input args) (include_si args)).
  { rewrite Hres, map_map. rewrite <- (map_id (find_pdf_files _ _ _)) at 2.
    apply map_ext. intros f. apply result_of_names_file. }
  split; [exact Hnames|]. split; [exact Hres|]. split; [exact Hreport|].
  split.
  - rewrite Hres. apply Forall_fmap, Forall_forall. intros f _. simpl.
    destruct (success (result_of W args config (output args) f)) eqn:Hs;
      [left; reflexivity|].
    right. apply process_stages_result. exact Hs.
  - intros Hfile Hdir Hsi.
    assert (Hfound : Forall (fun f => contains (name f) (lit "SI") = false)
                       (find_pdf_files (fs W) (input args)
                          (include_si args))).
    { unfold find_pdf_files. rewrite Hfile, Hdir, Hsi.
      rewrite fold_skip_filter. simpl.
      apply Forall_forall. intros f Hin.
      apply list_elem_of_In, filter_In in Hin as [_ Hf].
      apply negb_true_iff in Hf. exact Hf. }
    rewrite <- Hnames in Hfound. apply Forall_fmap in Hfound. exact Hfound.
Qed.

Lemma main_results_follow_files_witness :
  map pdf_file
    (map (result_of (two_file_world false) batch_args no_config
            (output batch_args))
       [file_named "first.pdf"; file_named "second.pdf"])
  = [file_named "first.pdf"; file_named "second.pdf"].
Proof.
  apply (main_results_follow_files (two_file_world false) batch_args
           no_config
           {| status := 0;
              results :=
                map (result_of (two_file_world false) batch_args no_config
                       (output batch_args))
                  [file_named "first.pdf"; file_named "second.pdf"];
              report :=
                Some (map (result_of (two_file_world false) batch_args
                             no_config (output batch_args))
                        [file_named "first.pdf"; file_named "second.pdf"])
           |}).
  vm_compute. reflexivity.
Defined.
